(** * Session state model of the online compiler front-end

    A shallow embedding of the state-handling code of [src/app/page.jsx]
    (the [Home] component) and of [saveEditing] of the file-tab bar.

    React state variables become the fields of one [Session] record.  A
    handler is a function of the render whose closure it captured (the
    values it reads as [files], [language], ...) and yields an effect: a
    state transformer over the session that may end in a thrown exception.
    State written before a throw stays written, as in JavaScript. *)

From Stdlib Require Import String Ascii List ZArith NArith Bool Lia.
From Stdlib Require Import DecimalString DecimalZ.
Import ListNotations.

#[local] Set Warnings "-register-all".

Local Open Scope list_scope.
Local Open Scope string_scope.

(** ** JavaScript string and array primitives used by the handlers *)

Module JS.

(** [s.split(c)] for a one-character separator: never the empty array. *)
Fixpoint split (sep : ascii) (s : string) : list string :=
  match s with
  | EmptyString => [EmptyString]
  | String c rest =>
      if Ascii.eqb c sep then EmptyString :: split sep rest
      else match split sep rest with
           | [] => [String c EmptyString]
           | piece :: pieces => String c piece :: pieces
           end
  end.

(** [a.pop()]: the last element, [undefined] (here [None]) when empty. *)
Fixpoint pop {A : Type} (a : list A) : option A :=
  match a with
  | [] => None
  | [x] => Some x
  | _ :: rest => pop rest
  end.

(** [a[0]]. *)
Definition first {A : Type} (a : list A) : option A := nth_error a 0.

(** [c.toLowerCase()] on the ASCII range; other bytes are left alone. *)
Definition lowerChar (c : ascii) : ascii :=
  let n := N_of_ascii c in
  if ((65 <=? n) && (n <=? 90))%N then ascii_of_N (n + 32) else c.

Fixpoint toLowerCase (s : string) : string :=
  match s with
  | EmptyString => EmptyString
  | String c rest => String (lowerChar c) (toLowerCase rest)
  end.

(** White space removed by [trim] (ASCII range). *)
Definition isSpace (c : ascii) : bool :=
  let n := N_of_ascii c in
  ((n =? 32) || ((9 <=? n) && (n <=? 13)))%N.

Fixpoint trimStart (s : string) : string :=
  match s with
  | EmptyString => EmptyString
  | String c rest => if isSpace c then trimStart rest else s
  end.

Fixpoint trimEnd (s : string) : string :=
  match s with
  | EmptyString => EmptyString
  | String c rest =>
      match trimEnd rest with
      | EmptyString => if isSpace c then EmptyString else String c EmptyString
      | kept => String c kept
      end
  end.

Definition trim (s : string) : string := trimEnd (trimStart s).

(** Truthiness of a possibly missing string: absent and [""] are falsy. *)
Definition truthy (v : option string) : bool :=
  match v with
  | Some s => negb (s =? "")
  | None => false
  end.

(** [v || d] for a possibly missing string [v]. *)
Definition orElse (v : option string) (d : string) : string :=
  match v with
  | Some s => if s =? "" then d else s
  | None => d
  end.

(** A value interpolated in a template literal. *)
Definition interpolate (v : option string) : string :=
  match v with
  | Some s => s
  | None => "undefined"
  end.

(** [n.toString()] for an integer [n]. *)
Definition toString (n : Z) : string := NilEmpty.string_of_int (Z.to_int n).

(** Strict equality of two possibly undefined strings. *)
Definition strictEq (a b : option string) : bool :=
  match a, b with
  | Some x, Some y => x =? y
  | None, None => true
  | _, _ => false
  end.

(** [a.map((x, i) => f(i, x))]. *)
Fixpoint mapFrom {A B : Type} (i : nat) (f : nat -> A -> B) (a : list A) : list B :=
  match a with
  | [] => []
  | x :: rest => f i x :: mapFrom (S i) f rest
  end.

Definition mapi {A B : Type} (f : nat -> A -> B) (a : list A) : list B :=
  mapFrom 0 f a.

End JS.

(** ** Data model *)

Module File.
Record t : Type := make
  { id : string; name : string; content : string; language : string }.

Definition setName (v : string) (f : t) : t :=
  {| id := id f; name := v; content := content f; language := language f |}.

Definition setContent (v : string) (f : t) : t :=
  {| id := id f; name := name f; content := v; language := language f |}.

(** [{ ...f, name, content, language }]. *)
Definition retarget (n c l : string) (f : t) : t :=
  {| id := id f; name := n; content := c; language := l |}.
End File.

Inductive Verdict : Type := pending | success | error.

Module TestCase.
Record t : Type := make
  { id : Z; input : string; output : option string; status : Verdict }.

(** [{ ...tc, output, status }]. *)
Definition settle (o : string) (v : Verdict) (tc : t) : t :=
  {| id := id tc; input := input tc; output := Some o; status := v |}.
End TestCase.

Module HistoryEntry.
Record t : Type := make
  { id : Z;
    timestamp : string;
    language : string;
    files : list File.t;
    testCases : list TestCase.t }.
End HistoryEntry.

(** The state variables of [Home]. *)
Record Session : Type := mkSession
  { theme : string;
    language : string;
    files : list File.t;
    activeFileId : string;
    testCases : list TestCase.t;
    history : list HistoryEntry.t;
    isLoading : bool;
    stdin : string;
    activeTab : string;
    output : option string }.

Definition initialFile : File.t :=
  File.make "1" "main.js"
    "// Main entry point
console.log('Hello from main!');" "javascript".

Definition initialSession : Session :=
  {| theme := "dark";
     language := "javascript";
     files := [initialFile];
     activeFileId := "1";
     testCases := [TestCase.make 1 "" None pending];
     history := [];
     isLoading := false;
     stdin := "";
     activeTab := "input";
     output := None |}.

(** ** Effects: state updates that may throw *)

Inductive completion (A : Type) : Type :=
| Normal (a : A)
| Throw (message : string).

Arguments Normal {A} a.
Arguments Throw {A} message.

Definition Eff (S A : Type) : Type := S -> completion A * S.

Definition ret {S A : Type} (a : A) : Eff S A := fun s => (Normal a, s).

Definition throw {S A : Type} (message : string) : Eff S A :=
  fun s => (Throw message, s).

Definition bind {S A B : Type} (m : Eff S A) (k : A -> Eff S B) : Eff S B :=
  fun s =>
    match m s with
    | (Normal a, s') => k a s'
    | (Throw e, s') => (Throw e, s')
    end.

(** [try { body } catch (e) { handler(e) }]. *)
Definition tryCatch {S A : Type} (body : Eff S A) (handler : string -> Eff S A) : Eff S A :=
  fun s =>
    match body s with
    | (Normal a, s') => (Normal a, s')
    | (Throw e, s') => handler e s'
    end.

(** [try { body } finally { cleanup }]. *)
Definition tryFinally {S A : Type} (body : Eff S A) (cleanup : Eff S unit) : Eff S A :=
  fun s =>
    match body s with
    | (r, s') =>
        match cleanup s' with
        | (Normal _, s'') => (r, s'')
        | (Throw e, s'') => (Throw e, s'')
        end
    end.

Declare Scope eff_scope.
Delimit Scope eff_scope with eff.
Notation "x <- m ;; k" := (bind m (fun x => k))
  (at level 61, m at next level, right associativity) : eff_scope.
Notation "m ;; k" := (bind m (fun _ => k))
  (at level 61, right associativity) : eff_scope.
Local Open Scope eff_scope.

(** The state setters. *)
Definition setTheme (v : string) : Eff Session unit := fun s =>
  (Normal tt,
   mkSession v (language s) (files s) (activeFileId s) (testCases s)
     (history s) (isLoading s) (stdin s) (activeTab s) (output s)).

Definition setLanguage (v : string) : Eff Session unit := fun s =>
  (Normal tt,
   mkSession (theme s) v (files s) (activeFileId s) (testCases s)
     (history s) (isLoading s) (stdin s) (activeTab s) (output s)).

Definition setFiles (v : list File.t) : Eff Session unit := fun s =>
  (Normal tt,
   mkSession (theme s) (language s) v (activeFileId s) (testCases s)
     (history s) (isLoading s) (stdin s) (activeTab s) (output s)).

(** [setFiles(prev => f(prev))]. *)
Definition updateFiles (f : list File.t -> list File.t) : Eff Session unit := fun s =>
  setFiles (f (files s)) s.

Definition setActiveFileId (v : string) : Eff Session unit := fun s =>
  (Normal tt,
   mkSession (theme s) (language s) (files s) v (testCases s)
     (history s) (isLoading s) (stdin s) (activeTab s) (output s)).

Definition setTestCases (v : list TestCase.t) : Eff Session unit := fun s =>
  (Normal tt,
   mkSession (theme s) (language s) (files s) (activeFileId s) v
     (history s) (isLoading s) (stdin s) (activeTab s) (output s)).

Definition setHistory (v : list HistoryEntry.t) : Eff Session unit := fun s =>
  (Normal tt,
   mkSession (theme s) (language s) (files s) (activeFileId s) (testCases s)
     v (isLoading s) (stdin s) (activeTab s) (output s)).

Definition setIsLoading (v : bool) : Eff Session unit := fun s =>
  (Normal tt,
   mkSession (theme s) (language s) (files s) (activeFileId s) (testCases s)
     (history s) v (stdin s) (activeTab s) (output s)).

Definition setActiveTab (v : string) : Eff Session unit := fun s =>
  (Normal tt,
   mkSession (theme s) (language s) (files s) (activeFileId s) (testCases s)
     (history s) (isLoading s) (stdin s) v (output s)).

Definition setOutput (v : option string) : Eff Session unit := fun s =>
  (Normal tt,
   mkSession (theme s) (language s) (files s) (activeFileId s) (testCases s)
     (history s) (isLoading s) (stdin s) (activeTab s) v).

(** A handler closes over the render in which it was created. *)
Definition Handler : Type := Session -> Eff Session unit.

(** The handler of the current render fires on the current state. *)
Definition fire (h : Handler) (s : Session) : completion unit * Session := h s s.

Definition after (h : Handler) (s : Session) : Session := snd (fire h s).

(** [files.find(f => f.id === id)]. *)
Definition findFile (id : string) (fs : list File.t) : option File.t :=
  find (fun f => File.id f =? id) fs.

(** The message of the TypeError raised by reading [.id] of [undefined]. *)
Definition readIdOfUndefined : string :=
  "Cannot read properties of undefined (reading 'id')".

(** ** Base64 decoding ([atob]) *)

Module Base64.

(** ASCII white space skipped by the decoder. *)
Definition isAsciiWhitespace (c : ascii) : bool :=
  let n := N_of_ascii c in
  ((n =? 9) || (n =? 10) || (n =? 12) || (n =? 13) || (n =? 32))%N.

(** The value of a character of the base64 alphabet. *)
Definition sextet (c : ascii) : option N :=
  let n := N_of_ascii c in
  if ((65 <=? n) && (n <=? 90))%N then Some (n - 65)%N
  else if ((97 <=? n) && (n <=? 122))%N then Some (n - 71)%N
  else if ((48 <=? n) && (n <=? 57))%N then Some (n + 4)%N
  else if (n =? 43)%N then Some 62%N
  else if (n =? 47)%N then Some 63%N
  else None.

Definition stripWhitespace (cs : list ascii) : list ascii :=
  filter (fun c => negb (isAsciiWhitespace c)) cs.

Definition isPad (c : ascii) : bool := Ascii.eqb c "="%char.

(** One or two trailing [=] are dropped when the length is a multiple of 4. *)
Definition stripPadding (cs : list ascii) : list ascii :=
  if (length cs mod 4 =? 0)%nat then
    match rev cs with
    | p :: q :: rest =>
        if isPad p then (if isPad q then rev rest else rev (q :: rest)) else cs
    | _ => cs
    end
  else cs.

Fixpoint sextets (cs : list ascii) : option (list N) :=
  match cs with
  | [] => Some []
  | c :: rest =>
      match sextet c, sextets rest with
      | Some v, Some vs => Some (v :: vs)
      | _, _ => None
      end
  end.

Definition byte (n : N) : ascii := ascii_of_N (n mod 256).

(** Four sextets give three bytes; a tail of three gives two, of two one. *)
Fixpoint bytes (vs : list N) : list ascii :=
  match vs with
  | a :: b :: c :: d :: rest =>
      byte (a * 4 + b / 16) :: byte (b * 16 + c / 4) :: byte (c * 64 + d)
        :: bytes rest
  | [a; b; c] => [byte (a * 4 + b / 16); byte (b * 16 + c / 4)]
  | [a; b] => [byte (a * 4 + b / 16)]
  | _ => []
  end%N.

(** [atob(s)]: [None] stands for the InvalidCharacterError it throws. *)
Definition atob (s : string) : option string :=
  let cs := stripPadding (stripWhitespace (list_ascii_of_string s)) in
  if (length cs mod 4 =? 1)%nat then None
  else match sextets cs with
       | Some vs => Some (string_of_list_ascii (bytes vs))
       | None => None
       end.

Definition invalidCharacter : string :=
  "Failed to execute 'atob' on 'Window': The string to be decoded is not correctly encoded.".

End Base64.

(** A line feed. *)
Definition LF : string := String (ascii_of_nat 10) EmptyString.

(** ** The judge service as seen by the client *)

Module Judge.

Record Status : Type := mkStatus
  { id : option Z; description : option string }.

(** [data.result]: every field may be missing or null. *)
Record Result : Type := mkResult
  { stdout : option string;
    stderr : option string;
    compile_output : option string;
    status : option Status }.

(** The JSON body of a response. *)
Record Response : Type := mkResponse
  { success : bool; message : option string; result : option Result }.

Record SourceFile : Type := mkSourceFile
  { fileName : string; fileContent : string }.

Record Request : Type := mkRequest
  { files : list SourceFile;
    fileToCompile : string;
    languageId : Z;
    input : string }.

(** What [await fetch(...)] followed by [await response.json()] gives:
    either of them rejects with an error carrying [message], or the body
    parses to [data]. *)
Inductive Outcome : Type :=
| Rejected (message : string)
| Resolved (data : Response).

(** The message of the TypeError raised by destructuring [undefined]. *)
Definition destructureUndefined : string :=
  "Cannot destructure property 'stdout' of 'data.result' as it is undefined.".

End Judge.

(** Exceptions inside the per-test-case callback, which touches no state. *)
Definition bindC {A B : Type} (c : completion A) (k : A -> completion B) : completion B :=
  match c with
  | Normal a => k a
  | Throw e => Throw e
  end.

(** [atob] as the callback calls it. *)
Definition atobOrThrow (s : string) : completion string :=
  match Base64.atob s with
  | Some d => Normal d
  | None => Throw Base64.invalidCharacter
  end.

(** [if (field) outputText += label + atob(field) + "\n"]. *)
Definition appendDecoded (label : string) (field : option string) (outputText : string)
  : completion string :=
  match field with
  | Some f =>
      if f =? "" then Normal outputText
      else bindC (atobOrThrow f) (fun d => Normal (outputText ++ label ++ LF ++ d ++ LF))
  | None => Normal outputText
  end.

(** [status?.description]. *)
Definition statusDescription (st : option Judge.Status) : option string :=
  match st with
  | Some x => Judge.description x
  | None => None
  end.

(** [status?.id > 3]. *)
Definition statusIdAbove3 (st : option Judge.Status) : bool :=
  match st with
  | Some x => match Judge.id x with
              | Some n => (3 <? n)%Z
              | None => false
              end
  | None => false
  end.

Definition noOutputMessage : string :=
  "Program executed successfully with no output.".

(** The report text built from a [data.result]. *)
Definition outputTextOf (r : Judge.Result) : completion string :=
  let outputText := "" in
  let outputText :=
    if JS.truthy (statusDescription (Judge.status r))
    then outputText ++ "Status: " ++ JS.interpolate (statusDescription (Judge.status r)) ++ LF
    else outputText in
  bindC (appendDecoded "Compilation Output:" (Judge.compile_output r) outputText) (fun outputText =>
  bindC (appendDecoded "Error:" (Judge.stderr r) outputText) (fun outputText =>
  bindC (appendDecoded "Output:" (Judge.stdout r) outputText) (fun outputText =>
  Normal (if outputText =? "" then noOutputMessage else outputText)))).

(** [stderr || (status?.id > 3) ? 'error' : 'success']. *)
Definition verdictOf (r : Judge.Result) : Verdict :=
  if JS.truthy (Judge.stderr r) || statusIdAbove3 (Judge.status r)
  then error else success.

(** The body of the inner [try] of the per-test-case callback. *)
Definition settleTestCase (tc : TestCase.t) (o : Judge.Outcome) : completion TestCase.t :=
  match o with
  | Judge.Rejected e => Throw e
  | Judge.Resolved data =>
      if Judge.success data then
        match Judge.result data with
        | None => Throw Judge.destructureUndefined
        | Some r =>
            bindC (outputTextOf r) (fun outputText =>
            Normal (TestCase.settle outputText (verdictOf r) tc))
        end
      else
        Normal (TestCase.settle (JS.orElse (Judge.message data) "Unknown error") error tc)
  end.

(** The per-test-case callback, with its [catch]. *)
Definition runTestCase (tc : TestCase.t) (o : Judge.Outcome) : TestCase.t :=
  match settleTestCase tc o with
  | Normal tc' => tc'
  | Throw e => TestCase.settle ("Error: " ++ e) error tc
  end.

(** ** The language and extension tables *)

Fixpoint lookup (key : string) (table : list (string * string)) : option string :=
  match table with
  | [] => None
  | (k, v) :: rest => if k =? key then Some v else lookup key rest
  end.

(** [extensionMap] of the language effect. *)
Definition extensionMap : list (string * string) :=
  [("javascript", "js"); ("python", "py"); ("cpp", "cpp"); ("java", "java"); ("c", "c")].

(** [extensionToLanguage] of [handleRenameFile]. *)
Definition extensionToLanguage : list (string * string) :=
  [("js", "javascript"); ("py", "python"); ("cpp", "cpp"); ("java", "java"); ("c", "c")].

(** [validExtensions] of [saveEditing]. *)
Definition validExtensions : list string := ["js"; "py"; "cpp"; "java"; "c"].

Definition getExtensionFromLanguage (lang : string) : string :=
  JS.orElse (lookup lang extensionMap) "txt".

(** [name.split('.').pop()]. *)
Definition lastPart (name : string) : option string :=
  JS.pop (JS.split "."%char name).

(** [name.split('.').pop()?.toLowerCase()]. *)
Definition lowerExtension (name : string) : option string :=
  option_map JS.toLowerCase (lastPart name).

(** [extensionToLanguage[ext]] for a possibly undefined key (own properties
    only).  Every value of the table is a non-empty string, so a hit is what
    [if (newLang)] tests. *)
Definition languageOfExtension (ext : option string) : option string :=
  match ext with
  | Some e => lookup e extensionToLanguage
  | None => None
  end.

(** ** The rename box of the tab bar ([saveEditing]) *)

Inductive TabAction : Type :=
| StopEditing
| AlertAndStop (text : string)
| RenameAndStop (id newName : string).

Definition missingExtensionAlert : string :=
  "Please include a valid file extension (.js, .py, .cpp, .java, .c)".

Definition invalidExtensionAlert : string :=
  "Invalid extension. Use: .js, .py, .cpp, .java, .c".

Definition includes (x : string) (xs : list string) : bool :=
  existsb (fun y => y =? x) xs.

Definition saveEditing (editingId : option string) (editName : string) : TabAction :=
  if negb (JS.truthy editingId) || (JS.trim editName =? "") then StopEditing
  else
    let parts := JS.split "."%char (JS.trim editName) in
    if (length parts <? 2)%nat then AlertAndStop missingExtensionAlert
    else
      let extension := JS.toLowerCase (JS.interpolate (JS.pop parts)) in
      if negb (includes extension validExtensions)
      then AlertAndStop invalidExtensionAlert
      else RenameAndStop (JS.interpolate editingId) (JS.trim editName).

(** ** The handlers of [Home] *)

(** A reading of the clock: [Date.now()] and [new Date().toISOString()]. *)
Record Clock : Type := mkClock { now : Z; isoNow : string }.

Section Home.

(** The tables exported by [@/utils/templates]: the starter template of a
    language, the judge's numeric id of a language, and the template
    chosen from a file name. *)
Variable languageTemplates : string -> option string.
Variable languageIds : string -> option Z.
Variable getTemplateForFile : string -> option string.

(** [languageTemplates[lang] || ""]. *)
Definition templateOf (lang : string) : string :=
  JS.orElse (languageTemplates lang) "".

(** [languageIds[language] || 63]. *)
Definition languageIdOf (lang : string) : Z :=
  match languageIds lang with
  | Some n => if (n =? 0)%Z then 63%Z else n
  | None => 63%Z
  end.

Definition handleCodeChange (newCode : string) : Handler := fun r =>
  updateFiles (map (fun f =>
    if File.id f =? activeFileId r then File.setContent newCode f else f)).

Definition handleCreateFile (clock : Clock) (fileName : string) : Handler := fun r =>
  let template := getTemplateForFile fileName in
  let newFile :=
    File.make (JS.toString (now clock)) fileName (JS.orElse template "") (language r) in
  updateFiles (fun prev => (prev ++ [newFile])%list) ;;
  setActiveFileId (File.id newFile).

Definition handleDeleteFile (id : string) : Handler := fun r =>
  if (length (files r) <=? 1)%nat then ret tt
  else
    let newFiles := filter (fun f => negb (File.id f =? id)) (files r) in
    setFiles newFiles ;;
    if activeFileId r =? id then
      match newFiles with
      | first :: _ => setActiveFileId (File.id first)
      | [] => throw readIdOfUndefined
      end
    else ret tt.

Definition handleRenameFile (id newName : string) : Handler := fun r =>
  match findFile id (files r) with
  | None => ret tt
  | Some file =>
      let oldExtension := lowerExtension (File.name file) in
      let newExtension := lowerExtension newName in
      if negb (JS.strictEq oldExtension newExtension) then
        match languageOfExtension newExtension with
        | Some newLang =>
            setLanguage newLang ;;
            let newTemplate := templateOf newLang in
            updateFiles (map (fun f =>
              if File.id f =? id then File.retarget newName newTemplate newLang f else f))
        | None =>
            updateFiles (map (fun f =>
              if File.id f =? id then File.setName newName f else f))
        end
      else
        updateFiles (map (fun f =>
          if File.id f =? id then File.setName newName f else f))
  end.

(** The effect that depends on [language] and [activeFileId]. *)
Definition languageEffect : Handler := fun r =>
  if activeFileId r =? "" then ret tt
  else
    match findFile (activeFileId r) (files r) with
    | None => ret tt
    | Some activeFile =>
        let newExtension := getExtensionFromLanguage (language r) in
        let currentExtension := lastPart (File.name activeFile) in
        if negb (JS.strictEq currentExtension (Some newExtension)) then
          let baseName := JS.first (JS.split "."%char (File.name activeFile)) in
          let newName := JS.interpolate baseName ++ "." ++ newExtension in
          let newTemplate := templateOf (language r) in
          updateFiles (map (fun f =>
            if File.id f =? activeFileId r
            then File.retarget newName newTemplate (language r) f
            else f))
        else ret tt
    end.

(** A handler fires and React renders again; the language effect runs after
    that render when [language] or [activeFileId] changed. *)
Definition dispatch (h : Handler) (s : Session) : Session :=
  let s' := after h s in
  if (language s' =? language s) && (activeFileId s' =? activeFileId s)
  then s'
  else after languageEffect s'.

(** The language selector calls [setLanguage]. *)
Definition selectLanguage (lang : string) : Session -> Session :=
  dispatch (fun _ => setLanguage lang).

(** A click on a tab calls [setActiveFileId]. *)
Definition selectFile (id : string) : Session -> Session :=
  dispatch (fun _ => setActiveFileId id).

(** The popup calls [handleCreateFile]. *)
Definition createFile (clock : Clock) (fileName : string) : Session -> Session :=
  dispatch (handleCreateFile clock fileName).

(** A rename typed in the tab bar, as far as the session is concerned. *)
Definition commitRename (editingId : option string) (editName : string) (s : Session)
  : Session :=
  match saveEditing editingId editName with
  | RenameAndStop id newName => dispatch (handleRenameFile id newName) s
  | _ => s
  end.

(** [restoreFromHistory(item)]; [confirmed] is the answer to the dialog. *)
Definition restoreFromHistory (item : HistoryEntry.t) (confirmed : bool) : Handler := fun _ =>
  if confirmed then
    setLanguage (HistoryEntry.language item) ;;
    setFiles (HistoryEntry.files item) ;;
    setTestCases (HistoryEntry.testCases item)
  else ret tt.

(** [newHistoryItem] of [saveToHistory]; the deep copies made through JSON
    are the values themselves. *)
Definition newHistoryItem (clock : Clock) (results : list TestCase.t) (r : Session)
  : HistoryEntry.t :=
  HistoryEntry.make (now clock) (isoNow clock) (language r) (files r) results.

(** [saveToHistory(results)]. *)
Definition saveToHistory (clock : Clock) (results : list TestCase.t) : Handler := fun r =>
  let updatedHistory := firstn 10 (newHistoryItem clock results r :: history r) in
  setHistory updatedHistory.

(** [files.map(f => ({ fileName: f.name, fileContent: f.content }))]. *)
Definition sourceFiles (fs : list File.t) : list Judge.SourceFile :=
  map (fun f => Judge.mkSourceFile (File.name f) (File.content f)) fs.

(** [{ ...basePayload, input: tc.input || "" }]. *)
Definition requestFor (r : Session) (activeFile : File.t) (tc : TestCase.t) : Judge.Request :=
  Judge.mkRequest (sourceFiles (files r)) (File.name activeFile)
    (languageIdOf (language r)) (JS.orElse (Some (TestCase.input tc)) "").

(** The network: the outcome of the request sent for the test case at a
    given position. *)
Definition Network : Type := nat -> Judge.Request -> Judge.Outcome.

(** The results [Promise.all] resolves to: one per test case, in order. *)
Definition runAll (net : Network) (r : Session) (activeFile : File.t) : list TestCase.t :=
  JS.mapi (fun i tc => runTestCase tc (net i (requestFor r activeFile tc))) (testCases r).

(** [handleRun] of the test-case mode. *)
Definition handleRun (net : Network) (clock : Clock) : Handler := fun r =>
  setIsLoading true ;;
  match findFile (activeFileId r) (files r) with
  | None => ret tt
  | Some activeFile =>
      tryFinally
        (tryCatch
           (let results := runAll net r activeFile in
            setTestCases results ;;
            saveToHistory clock results r)
           (fun _ => ret tt))
        (setIsLoading false)
  end.

(** [handleRun] of the single-request mode, which writes [output]. *)
Definition handleRunSingle (net : Judge.Request -> Judge.Outcome) : Handler := fun r =>
  setIsLoading true ;;
  setOutput None ;;
  setActiveTab "output" ;;
  tryFinally
    (tryCatch
       (match findFile (activeFileId r) (files r) with
        | None => ret tt
        | Some activeFile =>
            let payload :=
              Judge.mkRequest (sourceFiles (files r)) (File.name activeFile)
                (languageIdOf (language r)) (stdin r) in
            match net payload with
            | Judge.Rejected e => throw e
            | Judge.Resolved data =>
                if Judge.success data then
                  match Judge.result data with
                  | None => throw Judge.destructureUndefined
                  | Some res =>
                      match outputTextOf res with
                      | Normal outputText => setOutput (Some outputText)
                      | Throw e => throw e
                      end
                  end
                else
                  setOutput (Some ("Error: " ++
                    JS.orElse (Judge.message data) "Unknown error occurred"))
            end
        end)
       (fun e => setOutput (Some ("Error: " ++ e))))
    (setIsLoading false).

(** What a call of [handleRun] leaves behind. *)
Definition run (net : Network) (clock : Clock) (s : Session) : Session :=
  after (handleRun net clock) s.

(** Successive runs, each with its network and clock reading. *)
Definition runs (calls : list (Network * Clock)) (s : Session) : Session :=
  fold_left (fun acc call => run (fst call) (snd call) acc) calls s.

(** Successive file creations. *)
Definition createFiles (calls : list (Clock * string)) (s : Session) : Session :=
  fold_left (fun acc call => createFile (fst call) (snd call) acc) calls s.

End Home.

(** ** Share links and the mount effect

    The mount effect stores whatever [JSON.parse] returned, so its state
    holds JavaScript values: JSON values or [undefined]. *)

Inductive json : Type :=
| JNull
| JBool (b : bool)
| JNum (n : Z)
| JStr (s : string)
| JArr (items : list json)
| JObj (fields : list (string * json)).

(** A JavaScript value: [None] is [undefined]. *)
Definition jsval : Type := option json.

Module Value.

Fixpoint field (key : string) (fields : list (string * json)) : jsval :=
  match fields with
  | [] => None
  | (k, v) :: rest => if k =? key then Some v else field key rest
  end.

Definition readOfNullish (key : string) : string :=
  "Cannot read properties of undefined (reading '" ++ key ++ "')".

(** [v.key] for the keys the mount effect reads (none is a built-in
    property): a TypeError on [undefined] and [null], the own property of an
    object, [undefined] on everything else. *)
Definition member (v : jsval) (key : string) : completion jsval :=
  match v with
  | None | Some JNull => Throw (readOfNullish key)
  | Some (JObj fields) => Normal (field key fields)
  | Some _ => Normal None
  end.

(** [v[0]]. *)
Definition index0 (v : jsval) : completion jsval :=
  match v with
  | None | Some JNull => Throw (readOfNullish "0")
  | Some (JArr items) => Normal (nth_error items 0)
  | Some (JObj fields) => Normal (field "0" fields)
  | Some (JStr (String c _)) => Normal (Some (JStr (String c EmptyString)))
  | Some _ => Normal None
  end.

(** [v?.key]. *)
Definition optionalMember (v : jsval) (key : string) : completion jsval :=
  match v with
  | None | Some JNull => Normal None
  | _ => member v key
  end.

Definition truthy (v : jsval) : bool :=
  match v with
  | None | Some JNull | Some (JBool false) | Some (JNum 0%Z) | Some (JStr EmptyString) => false
  | Some _ => true
  end.

(** [v || d]. *)
Definition orElse (v : jsval) (d : json) : jsval :=
  if truthy v then v else Some d.

End Value.

(** The session as JSON, the way [JSON.stringify] sees the state objects. *)
Module ToJson.

Definition file (f : File.t) : json :=
  JObj [("id", JStr (File.id f)); ("name", JStr (File.name f));
        ("content", JStr (File.content f)); ("language", JStr (File.language f))].

Definition verdict (v : Verdict) : json :=
  match v with
  | pending => JStr "pending"
  | success => JStr "success"
  | error => JStr "error"
  end.

Definition testCase (tc : TestCase.t) : json :=
  JObj [("id", JNum (TestCase.id tc)); ("input", JStr (TestCase.input tc));
        ("output", match TestCase.output tc with Some o => JStr o | None => JNull end);
        ("status", verdict (TestCase.status tc))].

Definition fileList (fs : list File.t) : json := JArr (map file fs).

Definition testCaseList (tcs : list TestCase.t) : json := JArr (map testCase tcs).

(** [{ language, files, testCases }] of [handleShare]. *)
Definition shared (lang : string) (fs : list File.t) (tcs : list TestCase.t) : json :=
  JObj [("language", JStr lang); ("files", fileList fs); ("testCases", testCaseList tcs)].

End ToJson.

Module Boot.

(** The state variables the mount effect writes. *)
Record State : Type := mkState
  { mounted : bool;
    theme : string;
    language : jsval;
    files : jsval;
    activeFileId : jsval;
    testCases : jsval;
    history : jsval;
    stdin : string }.

Definition setMounted (v : bool) : Eff State unit := fun s =>
  (Normal tt,
   mkState v (theme s) (language s) (files s) (activeFileId s) (testCases s)
     (history s) (stdin s)).

Definition setTheme (v : string) : Eff State unit := fun s =>
  (Normal tt,
   mkState (mounted s) v (language s) (files s) (activeFileId s) (testCases s)
     (history s) (stdin s)).

Definition setLanguage (v : jsval) : Eff State unit := fun s =>
  (Normal tt,
   mkState (mounted s) (theme s) v (files s) (activeFileId s) (testCases s)
     (history s) (stdin s)).

Definition setFiles (v : jsval) : Eff State unit := fun s =>
  (Normal tt,
   mkState (mounted s) (theme s) (language s) v (activeFileId s) (testCases s)
     (history s) (stdin s)).

Definition setActiveFileId (v : jsval) : Eff State unit := fun s =>
  (Normal tt,
   mkState (mounted s) (theme s) (language s) (files s) v (testCases s)
     (history s) (stdin s)).

Definition setTestCases (v : jsval) : Eff State unit := fun s =>
  (Normal tt,
   mkState (mounted s) (theme s) (language s) (files s) (activeFileId s) v
     (history s) (stdin s)).

Definition setHistory (v : jsval) : Eff State unit := fun s =>
  (Normal tt,
   mkState (mounted s) (theme s) (language s) (files s) (activeFileId s) (testCases s)
     v (stdin s)).

Definition setStdin (v : string) : Eff State unit := fun s =>
  (Normal tt,
   mkState (mounted s) (theme s) (language s) (files s) (activeFileId s) (testCases s)
     (history s) v).

(** [localStorage]: [getItem] of each key, [None] when the key is absent. *)
Record Storage : Type := mkStorage
  { savedTheme : option string;
    savedLanguage : option string;
    savedFiles : option string;
    savedActiveFileId : option string;
    savedTestCases : option string;
    savedHistory : option string;
    savedStdin : option string }.

Definition emptyStorage : Storage :=
  mkStorage None None None None None None None.

End Boot.

(** The state of the first render: the [useState] defaults. *)
Definition firstRender (s : Session) : Boot.State :=
  Boot.mkState false (theme s)
    (Some (JStr (language s)))
    (Some (ToJson.fileList (files s)))
    (Some (JStr (activeFileId s)))
    (Some (ToJson.testCaseList (testCases s)))
    (Some (JArr []))
    (stdin s).

(** Lifting of a pure computation that may throw. *)
Definition liftC {S A : Type} (c : completion A) : Eff S A :=
  fun s => (c, s).

Section Share.

(** The codec of [lz-string] and the JSON built-ins.  [None] is the [null]
    the decompressor returns; [Throw] is the SyntaxError of [JSON.parse]. *)
Variable compressToEncodedURIComponent : string -> string.
Variable decompressFromEncodedURIComponent : string -> option string.
Variable JSON_stringify : json -> string.
Variable JSON_parse : string -> completion json.

(** The token of [handleShare]. *)
Definition shareToken (r : Session) : string :=
  let data := ToJson.shared (language r) (files r) (testCases r) in
  compressToEncodedURIComponent (JSON_stringify data).

(** The URL [handleShare] copies to the clipboard. *)
Definition handleShare (origin pathname : string) (r : Session) : string :=
  origin ++ pathname ++ "?data=" ++ shareToken r.

(** The [try] block of the mount effect; [true] when it reached the
    [return] that skips local storage. *)
Definition applyShared (sharedData : string) : Eff Boot.State bool :=
  let decompressed := decompressFromEncodedURIComponent sharedData in
  if JS.truthy decompressed then
    parsed <- liftC (JSON_parse (JS.interpolate decompressed)) ;;
    let data := Some parsed in
    lang <- liftC (Value.member data "language") ;;
    Boot.setLanguage lang ;;
    fs <- liftC (Value.member data "files") ;;
    Boot.setFiles fs ;;
    tcs <- liftC (Value.member data "testCases") ;;
    Boot.setTestCases tcs ;;
    fs' <- liftC (Value.member data "files") ;;
    first <- liftC (Value.index0 fs') ;;
    firstId <- liftC (Value.optionalMember first "id") ;;
    Boot.setActiveFileId (Value.orElse firstId (JStr "1")) ;;
    ret true
  else ret false.

(** [if (saved) setX(JSON.parse(saved))]. *)
Definition restoreJson (saved : option string) (set : jsval -> Eff Boot.State unit)
  : Eff Boot.State unit :=
  if JS.truthy saved then
    v <- liftC (JSON_parse (JS.interpolate saved)) ;;
    set (Some v)
  else ret tt.

(** [if (saved) setX(saved)]. *)
Definition restoreString {V : Type} (saved : option string) (set : V -> Eff Boot.State unit)
  (inject : string -> V) : Eff Boot.State unit :=
  if JS.truthy saved then set (inject (JS.interpolate saved)) else ret tt.

(** The part of the mount effect that reads local storage. *)
Definition restoreFromStorage (storage : Boot.Storage) : Eff Boot.State unit :=
  Boot.setTheme (JS.orElse (Boot.savedTheme storage) "dark") ;;
  restoreString (Boot.savedLanguage storage) Boot.setLanguage (fun v => Some (JStr v)) ;;
  restoreJson (Boot.savedFiles storage) Boot.setFiles ;;
  restoreString (Boot.savedActiveFileId storage) Boot.setActiveFileId (fun v => Some (JStr v)) ;;
  restoreJson (Boot.savedTestCases storage) Boot.setTestCases ;;
  restoreJson (Boot.savedHistory storage) Boot.setHistory ;;
  restoreString (Boot.savedStdin storage) Boot.setStdin (fun v => v).

(** The mount effect: [sharedData] is [params.get('data')]. *)
Definition mountEffect (sharedData : option string) (storage : Boot.Storage)
  : Eff Boot.State unit :=
  Boot.setMounted true ;;
  done <- (if JS.truthy sharedData
           then tryCatch (applyShared (JS.interpolate sharedData)) (fun _ => ret false)
           else ret false) ;;
  if (done : bool) then ret tt else restoreFromStorage storage.

End Share.

(** ** The report as the specification words it *)

Module Spec.

(** A labelled part of the report, when its text is present. *)
Definition part (label : string) (text : option string) : string :=
  match text with
  | Some t => label ++ LF ++ t ++ LF
  | None => ""
  end.

(** The status line, then the compilation output, the error output and the
    standard output, each when present; a fixed message when none is. *)
Definition report (description compiled errors printed : option string) : string :=
  let line :=
    match description with
    | Some d => "Status: " ++ d ++ LF
    | None => ""
    end in
  let text :=
    line ++ part "Compilation Output:" compiled ++ part "Error:" errors
      ++ part "Output:" printed in
  if text =? "" then "Program executed successfully with no output." else text.

(** A field as the judge sends it and the text it stands for: nothing when
    the field is missing or empty, its base64 decoding otherwise. *)
Definition decodesTo (field : option string) (text : option string) : Prop :=
  match field with
  | Some f => if f =? "" then text = None
              else exists d, Base64.atob f = Some d /\ text = Some d
  | None => text = None
  end.

(** A description that is present: not missing and not empty. *)
Definition present (description : option string) : option string :=
  if JS.truthy description then description else None.

End Spec.

(** ** A reference instance of the external interfaces

    A JSON printer and parser, a URL-safe codec and template tables to run
    the model on concrete inputs. *)

Module Sample.

Definition hexDigit (n : N) : ascii :=
  if (n <? 10)%N then ascii_of_N (48 + n) else ascii_of_N (87 + n).

Definition hexValue (c : ascii) : option N :=
  let n := N_of_ascii c in
  if ((48 <=? n) && (n <=? 57))%N then Some (n - 48)%N
  else if ((97 <=? n) && (n <=? 102))%N then Some (n - 87)%N
  else None.

Definition hex2 (c : ascii) : list ascii :=
  let n := N_of_ascii c in [hexDigit (n / 16); hexDigit (n mod 16)].

(** The codec: two hexadecimal digits per byte. *)
Definition compress (s : string) : string :=
  string_of_list_ascii (flat_map hex2 (list_ascii_of_string s)).

Fixpoint unhex (cs : list ascii) : option (list ascii) :=
  match cs with
  | [] => Some []
  | a :: b :: rest =>
      match hexValue a, hexValue b, unhex rest with
      | Some x, Some y, Some tail => Some (ascii_of_N (x * 16 + y) :: tail)
      | _, _, _ => None
      end
  | _ => None
  end.

Definition decompress (token : string) : option string :=
  if token =? "" then None
  else option_map string_of_list_ascii (unhex (list_ascii_of_string token)).

(** *** Printing JSON *)

(** The double quote. *)
Definition doubleQuote : ascii := ascii_of_N 34.

Definition escapeChar (c : ascii) : list ascii :=
  let n := N_of_ascii c in
  if (n =? 34)%N then ["\"%char; doubleQuote]
  else if (n =? 92)%N then ["\"; "\"]%char
  else if (n =? 10)%N then ["\"; "n"]%char
  else if (n =? 13)%N then ["\"; "r"]%char
  else if (n =? 9)%N then ["\"; "t"]%char
  else if (n <? 32)%N then (["\"; "u"; "0"; "0"]%char ++ hex2 c)%list
  else [c].

Definition quote (s : string) : string :=
  String doubleQuote
    (string_of_list_ascii (flat_map escapeChar (list_ascii_of_string s))
     ++ String doubleQuote "").

Fixpoint join (sep : string) (parts : list string) : string :=
  match parts with
  | [] => ""
  | [p] => p
  | p :: rest => p ++ sep ++ join sep rest
  end.

Fixpoint stringify (j : json) : string :=
  match j with
  | JNull => "null"
  | JBool true => "true"
  | JBool false => "false"
  | JNum n => JS.toString n
  | JStr s => quote s
  | JArr items => "[" ++ join "," (map stringify items) ++ "]"
  | JObj fields =>
      "{" ++ join "," (map (fun kv =>
               match kv with (k, v) => quote k ++ ":" ++ stringify v end) fields) ++ "}"
  end.

(** *** Parsing JSON *)

Definition Parser (A : Type) : Type := list ascii -> option (A * list ascii).

Fixpoint skipWs (cs : list ascii) : list ascii :=
  match cs with
  | c :: rest => if Base64.isAsciiWhitespace c then skipWs rest else cs
  | [] => []
  end.

Fixpoint dropPrefix (prefix cs : list ascii) : option (list ascii) :=
  match prefix, cs with
  | [], _ => Some cs
  | p :: prefix', c :: cs' => if Ascii.eqb p c then dropPrefix prefix' cs' else None
  | _ :: _, [] => None
  end.

Definition isCode (c : ascii) (code : N) : bool := (N_of_ascii c =? code)%N.

Fixpoint parseChars (cs : list ascii) : option (string * list ascii) :=
  match cs with
  | [] => None
  | c :: rest =>
      if isCode c 34 then Some ("", rest)
      else if isCode c 92 then
        match rest with
        | e :: rest' =>
            if isCode e 117 then
              match rest' with
              | a :: b :: x :: y :: rest'' =>
                  match hexValue a, hexValue b, hexValue x, hexValue y, parseChars rest'' with
                  | Some 0%N, Some 0%N, Some h, Some l, Some (s, r) =>
                      Some (String (ascii_of_N (h * 16 + l)) s, r)
                  | _, _, _, _, _ => None
                  end
              | _ => None
              end
            else
              let decoded :=
                if isCode e 110 then Some (ascii_of_N 10)
                else if isCode e 114 then Some (ascii_of_N 13)
                else if isCode e 116 then Some (ascii_of_N 9)
                else if isCode e 34 || isCode e 92 || isCode e 47 then Some e
                else None in
              match decoded, parseChars rest' with
              | Some d, Some (s, r) => Some (String d s, r)
              | _, _ => None
              end
        | [] => None
        end
      else
        match parseChars rest with
        | Some (s, r) => Some (String c s, r)
        | None => None
        end
  end.

Definition digitValue (c : ascii) : option Z :=
  let n := N_of_ascii c in
  if ((48 <=? n) && (n <=? 57))%N then Some (Z.of_N (n - 48)) else None.

Fixpoint parseDigits (acc : Z) (cs : list ascii) : Z * list ascii :=
  match cs with
  | c :: rest =>
      match digitValue c with
      | Some d => parseDigits (acc * 10 + d) rest
      | None => (acc, cs)
      end
  | [] => (acc, [])
  end.

Definition parseNumber (cs : list ascii) : option (Z * list ascii) :=
  match cs with
  | c :: rest =>
      if isCode c 45 then
        match rest with
        | d :: _ => match digitValue d with
                    | Some _ => let (n, r) := parseDigits 0 rest in Some ((- n)%Z, r)
                    | None => None
                    end
        | [] => None
        end
      else match digitValue c with
           | Some _ => Some (parseDigits 0 cs)
           | None => None
           end
  | [] => None
  end.

(** The items of an array after its first bracket. *)
Fixpoint parseItems (value : Parser json) (k : nat) (cs : list ascii)
  : option (list json * list ascii) :=
  match k with
  | O => None
  | S k' =>
      match value cs with
      | Some (v, r) =>
          match skipWs r with
          | c :: r' =>
              if isCode c 44 then
                match parseItems value k' r' with
                | Some (vs, r'') => Some (v :: vs, r'')
                | None => None
                end
              else if isCode c 93 then Some ([v], r')
              else None
          | [] => None
          end
      | None => None
      end
  end.

(** The fields of an object after its first brace. *)
Fixpoint parseFields (value : Parser json) (k : nat) (cs : list ascii)
  : option (list (string * json) * list ascii) :=
  match k with
  | O => None
  | S k' =>
      match skipWs cs with
      | q :: afterQuote =>
          if isCode q 34 then
            match parseChars afterQuote with
            | Some (key, r) =>
                match skipWs r with
                | colon :: r1 =>
                    if isCode colon 58 then
                      match value r1 with
                      | Some (v, r2) =>
                          match skipWs r2 with
                          | c :: r3 =>
                              if isCode c 44 then
                                match parseFields value k' r3 with
                                | Some (kvs, r4) => Some ((key, v) :: kvs, r4)
                                | None => None
                                end
                              else if isCode c 125 then Some ([(key, v)], r3)
                              else None
                          | [] => None
                          end
                      | None => None
                      end
                    else None
                | [] => None
                end
            | None => None
            end
          else None
      | [] => None
      end
  end.

Fixpoint parseValue (fuel : nat) (cs : list ascii) : option (json * list ascii) :=
  match fuel with
  | O => None
  | S fuel' =>
      match skipWs cs with
      | [] => None
      | c :: rest =>
          if isCode c 34 then
            match parseChars rest with
            | Some (s, r) => Some (JStr s, r)
            | None => None
            end
          else if isCode c 91 then
            match skipWs rest with
            | d :: r => if isCode d 93 then Some (JArr [], r)
                        else match parseItems (parseValue fuel') fuel' rest with
                             | Some (vs, r') => Some (JArr vs, r')
                             | None => None
                             end
            | [] => None
            end
          else if isCode c 123 then
            match skipWs rest with
            | d :: r => if isCode d 125 then Some (JObj [], r)
                        else match parseFields (parseValue fuel') fuel' rest with
                             | Some (kvs, r') => Some (JObj kvs, r')
                             | None => None
                             end
            | [] => None
            end
          else
            match dropPrefix (list_ascii_of_string "null") (c :: rest),
                  dropPrefix (list_ascii_of_string "true") (c :: rest),
                  dropPrefix (list_ascii_of_string "false") (c :: rest) with
            | Some r, _, _ => Some (JNull, r)
            | _, Some r, _ => Some (JBool true, r)
            | _, _, Some r => Some (JBool false, r)
            | None, None, None =>
                match parseNumber (c :: rest) with
                | Some (n, r) => Some (JNum n, r)
                | None => None
                end
            end
      end
  end.

Definition syntaxError : string := "Unexpected token in JSON".

Definition parse (text : string) : completion json :=
  let cs := list_ascii_of_string text in
  match parseValue (S (length cs)) cs with
  | Some (v, rest) =>
      match skipWs rest with
      | [] => Normal v
      | _ :: _ => Throw syntaxError
      end
  | None => Throw syntaxError
  end.

(** *** Template tables *)

Definition languageTemplates (lang : string) : option string :=
  lookup lang
    [("javascript", "console.log('Hello, World!');");
     ("python", "print('Hello, World!')");
     ("cpp", "int main() { return 0; }");
     ("java", "public class Main { }");
     ("c", "int main(void) { return 0; }")].

Definition languageIds (lang : string) : option Z :=
  if lang =? "javascript" then Some 63%Z
  else if lang =? "python" then Some 71%Z
  else if lang =? "cpp" then Some 54%Z
  else if lang =? "java" then Some 62%Z
  else if lang =? "c" then Some 50%Z
  else None.

Definition getTemplateForFile (fileName : string) : option string :=
  match languageOfExtension (lowerExtension fileName) with
  | Some lang => languageTemplates lang
  | None => None
  end.

(** A network without connection. *)
Definition offline : Network := fun _ _ => Judge.Rejected "Failed to fetch".

(** The reply for a program that printed 5 and a line feed. *)
Definition accepted : Judge.Result :=
  Judge.mkResult (Some "NQo=") None None
    (Some (Judge.mkStatus (Some 3%Z) (Some "Accepted"))).

(** A network on which the second request alone fails. *)
Definition secondFails : Network := fun i _ =>
  if (i =? 1)%nat then Judge.Rejected "Failed to fetch"
  else Judge.Resolved (Judge.mkResponse true None (Some accepted)).

(** Three pending test cases. *)
Definition threeTestCases : list TestCase.t :=
  [TestCase.make 1 "1 4" None pending;
   TestCase.make 2 "2 3" None pending;
   TestCase.make 3 "0 5" None pending].

(** Eleven runs, one millisecond apart. *)
Definition elevenRuns : list (Network * Clock) :=
  map (fun k => (offline, mkClock (1700000000000 + Z.of_nat k) ""))
    (seq 1 11).

End Sample.

(** ** The rest of the component *)

(** [currentCode]: [files.find(f => f.id === activeFileId)?.content || ""]. *)
Definition currentCode (s : Session) : string :=
  JS.orElse (option_map File.content (findFile (activeFileId s) (files s))) "".

(** [handleClear]. *)
Definition handleClear : Handler := handleCodeChange "".

(** The editor's [onChange]: [setCode(value || "")]. *)
Definition editorChanged (value : option string) : Handler :=
  handleCodeChange (JS.orElse value "").

(** The badge of a history entry:
    [item.testCases.every(tc => tc.status === 'success')]. *)
Definition allSucceeded (item : HistoryEntry.t) : bool :=
  forallb (fun tc =>
             match TestCase.status tc with
             | success => true
             | _ => false
             end) (HistoryEntry.testCases item).

(** The font size of the editor. *)
Module Editor.

Definition initialFontSize : Z := 14.

(** [setFontSize(prev => Math.min(prev + 2, 32))]. *)
Definition handleZoomIn (prev : Z) : Z := Z.min (prev + 2) 32.

(** [setFontSize(prev => Math.max(prev - 2, 10))]. *)
Definition handleZoomOut (prev : Z) : Z := Z.max (prev - 2) 10.

Inductive Click : Type := ZoomIn | ZoomOut.

Definition click (c : Click) (size : Z) : Z :=
  match c with
  | ZoomIn => handleZoomIn size
  | ZoomOut => handleZoomOut size
  end.

Definition clicks (cs : list Click) (size : Z) : Z :=
  fold_left (fun acc c => click c acc) cs size.

End Editor.



Section Persistence.

Variable JSON_stringify : json -> string.


End Persistence.

(** The rename box of a tab: [editingId] and [editName] of the tab bar. *)
Module Tabs.

Record Editing : Type := mkEditing { editingId : option string; editName : string }.


(** [onChange] of the input. *)
Definition changeName (value : string) (st : Editing) : Editing :=
  mkEditing (editingId st) value.


End Tabs.

(** ** The events of a session *)

Inductive Event : Type :=
| Typed (value : option string)
| FileCreated (clock : Clock) (fileName : string)
| FileDeleted (id : string)
| RenameTyped (editingId : option string) (editName : string)
| LanguageSelected (lang : string)
| TabClicked (id : string)
| RunPressed (net : Network) (clock : Clock).

Section Events.

Variable languageTemplates : string -> option string.
Variable languageIds : string -> option Z.
Variable getTemplateForFile : string -> option string.

(** What an event makes of the session, the language effect included. *)
Definition step (e : Event) (s : Session) : Session :=
  match e with
  | Typed value => dispatch languageTemplates (editorChanged value) s
  | FileCreated clock fileName =>
      createFile languageTemplates getTemplateForFile clock fileName s
  | FileDeleted id => dispatch languageTemplates (handleDeleteFile id) s
  | RenameTyped editingId editName =>
      commitRename languageTemplates editingId editName s
  | LanguageSelected lang => selectLanguage languageTemplates lang s
  | TabClicked id => selectFile languageTemplates id s
  | RunPressed net clock =>
      dispatch languageTemplates (handleRun languageIds net clock) s
  end.

Definition steps (es : list Event) (s : Session) : Session :=
  fold_left (fun acc e => step e acc) es s.

(** The events the interface can produce in a session: a new file gets a
    clock reading that is no id yet, and only shown tabs are clicked. *)
Definition possible (e : Event) (s : Session) : Prop :=
  match e with
  | FileCreated clock _ => ~ In (JS.toString (now clock)) (map File.id (files s))
  | TabClicked id => In id (map File.id (files s))
  | _ => True
  end.

Fixpoint allPossible (es : list Event) (s : Session) : Prop :=
  match es with
  | [] => True
  | e :: rest => possible e s /\ allPossible rest (step e s)
  end.

End Events.

(** The ids of the files are distinct and the active id is one of them. *)
Definition WellFormed (s : Session) : Prop :=
  NoDup (map File.id (files s)) /\ In (activeFileId s) (map File.id (files s)).

(** * Properties *)

(** ** Lists of files *)

Lemma eqb_string_false (a b : string) : a <> b -> (a =? b) = false.
Proof. intro H. apply String.eqb_neq. exact H. Qed.

Lemma filter_keeps_all_other_ids (id : string) (fs : list File.t) :
  ~ In id (map File.id fs) ->
  filter (fun f => negb (File.id f =? id)) fs = fs.
Proof.
  induction fs as [|f fs IH]; simpl; intro Hnot.
  - reflexivity.
  - rewrite eqb_string_false by (intro E; apply Hnot; left; exact E).
    simpl. f_equal. apply IH. intro Hin. apply Hnot. right. exact Hin.
Qed.

Lemma filter_removes_the_file (before : list File.t) (f : File.t) (rest : list File.t) :
  NoDup (map File.id (before ++ f :: rest)%list) ->
  filter (fun g => negb (File.id g =? File.id f)) (before ++ f :: rest)%list
  = (before ++ rest)%list.
Proof.
  intro Hnd. rewrite map_app in Hnd. simpl in Hnd.
  pose proof (NoDup_remove_2 _ _ _ Hnd) as Hout.
  rewrite filter_app. simpl. rewrite String.eqb_refl. simpl.
  rewrite !filter_keeps_all_other_ids; [reflexivity| |];
    intro Hin; apply Hout; apply in_or_app; [right|left]; exact Hin.
Qed.

Lemma findFile_some (id : string) (fs : list File.t) (f : File.t) :
  findFile id fs = Some f -> In f fs /\ File.id f = id.
Proof.
  unfold findFile. intro H. apply find_some in H. destruct H as [Hin Heq].
  split; [exact Hin | apply String.eqb_eq; exact Heq].
Qed.

Lemma findFile_none (id : string) (fs : list File.t) :
  findFile id fs = None -> ~ In id (map File.id fs).
Proof.
  unfold findFile. intros H Hin. apply in_map_iff in Hin.
  destruct Hin as [f [Hid Hin]].
  pose proof (find_none _ _ H f Hin) as Hf. simpl in Hf.
  rewrite Hid, String.eqb_refl in Hf. discriminate.
Qed.

(** ** Deleting a file *)

(** C7. [handleDeleteFile] leaves the session as it is when at most one file
    remains.  With two or more files (whose ids are distinct) it removes the
    file with the given id and no other, keeps the order of the rest, makes
    the first remaining file active when the removed one was active, and
    leaves the active id alone otherwise. *)
Theorem handleDeleteFile_refuses_last_else_removes (s : Session) (id : string) :
  (length (files s) <= 1 -> fire (handleDeleteFile id) s = (Normal tt, s))
  /\ (1 < length (files s) -> NoDup (map File.id (files s)) ->
      exists s',
        fire (handleDeleteFile id) s = (Normal tt, s')
        /\ (forall before f rest,
              files s = (before ++ f :: rest)%list -> File.id f = id ->
              files s' = (before ++ rest)%list)
        /\ (~ In id (map File.id (files s)) -> files s' = files s)
        /\ (activeFileId s = id ->
              exists first others,
                files s' = first :: others /\ activeFileId s' = File.id first)
        /\ (activeFileId s <> id -> activeFileId s' = activeFileId s)
        /\ language s' = language s
        /\ testCases s' = testCases s
        /\ history s' = history s).
Proof.
  split.
  - intro Hle. unfold fire, handleDeleteFile.
    apply Nat.leb_le in Hle. rewrite Hle. reflexivity.
  - intros Hlt Hnd. unfold fire, handleDeleteFile.
    assert (Hleb : (length (files s) <=? 1)%nat = false)
      by (apply Nat.leb_gt; exact Hlt).
    rewrite Hleb.
    set (newFiles := filter (fun f => negb (File.id f =? id)) (files s)).
    assert (Hremoved : forall before f rest,
               files s = (before ++ f :: rest)%list -> File.id f = id ->
               newFiles = (before ++ rest)%list).
    { intros before f rest Hsplit Hid. subst newFiles id.
      rewrite Hsplit in *. apply filter_removes_the_file. exact Hnd. }
    assert (Habsent : ~ In id (map File.id (files s)) -> newFiles = files s)
      by (apply filter_keeps_all_other_ids).
    assert (Hnonempty : newFiles <> []).
    { destruct (in_dec string_dec id (map File.id (files s))) as [Hin|Hout].
      - apply in_map_iff in Hin. destruct Hin as [f [Hid Hin]].
        apply in_split in Hin. destruct Hin as [before [rest Hsplit]].
        rewrite (Hremoved _ _ _ Hsplit Hid). intro Hnil.
        rewrite Hsplit, length_app in Hlt. simpl in Hlt.
        apply (f_equal (@length File.t)) in Hnil.
        rewrite length_app in Hnil. simpl in Hnil. lia.
      - rewrite (Habsent Hout). intro Hnil. rewrite Hnil in Hlt.
        simpl in Hlt. lia. }
    unfold bind, setFiles.
    destruct (activeFileId s =? id) eqn:Hactive.
    + apply String.eqb_eq in Hactive.
      destruct newFiles as [|first others] eqn:Hnew; [contradiction|].
      eexists. split; [reflexivity|]. simpl.
      repeat split; auto.
      * intros _. exists first, others. split; reflexivity.
      * intro Hneq. contradiction.
    + apply String.eqb_neq in Hactive.
      eexists. split; [reflexivity|]. simpl.
      repeat split; auto.
      intro Heq. contradiction.
Qed.

(** At the session of the first render plus a second file, deleting the
    active first file activates the second. *)
Lemma handleDeleteFile_refuses_last_else_removes_witness :
  let second := File.make "2" "util.js" "" "javascript" in
  let s := snd (setFiles [initialFile; second] initialSession) in
  exists s',
    fire (handleDeleteFile "1") s = (Normal tt, s')
    /\ files s' = [second] /\ activeFileId s' = "2".
Proof.
  intros second s.
  destruct (handleDeleteFile_refuses_last_else_removes s "1") as [_ Hremove].
  destruct Hremove as [s' [Hfire [Hgone [_ [Hactive _]]]]].
  - simpl. lia.
  - simpl. repeat constructor; simpl; intuition discriminate.
  - exists s'. split; [exact Hfire|].
    pose proof (Hgone [] initialFile [second] eq_refl eq_refl) as Hfiles.
    split; [exact Hfiles|].
    destruct (Hactive eq_refl) as [first [others [Hshape Hid]]].
    rewrite Hfiles in Hshape. injection Hshape as Hfirst _.
    rewrite Hid, <- Hfirst. reflexivity.
Defined.

(** ** Runs and the execution history *)

#[local] Arguments firstn : simpl never.

Section RunFacts.

Variable languageIds : string -> option Z.

Lemma handleRun_completes (net : Network) (clock : Clock) (s : Session)
  (activeFile : File.t) :
  findFile (activeFileId s) (files s) = Some activeFile ->
  fire (handleRun languageIds net clock) s
  = (Normal tt,
     mkSession (theme s) (language s) (files s) (activeFileId s)
       (runAll languageIds net s activeFile)
       (firstn 10 (newHistoryItem clock (runAll languageIds net s activeFile) s :: history s))
       false (stdin s) (activeTab s) (output s)).
Proof.
  intro Hactive. unfold fire, handleRun, bind. simpl.
  rewrite Hactive. reflexivity.
Qed.

Lemma handleRun_without_active_file (net : Network) (clock : Clock) (s : Session) :
  findFile (activeFileId s) (files s) = None ->
  fire (handleRun languageIds net clock) s
  = (Normal tt,
     mkSession (theme s) (language s) (files s) (activeFileId s) (testCases s)
       (history s) true (stdin s) (activeTab s) (output s)).
Proof.
  intro Hactive. unfold fire, handleRun, bind. simpl.
  rewrite Hactive. reflexivity.
Qed.

Lemma run_keeps_files (net : Network) (clock : Clock) (s : Session) :
  files (run languageIds net clock s) = files s
  /\ activeFileId (run languageIds net clock s) = activeFileId s.
Proof.
  unfold run, after.
  destruct (findFile (activeFileId s) (files s)) as [activeFile|] eqn:Hactive.
  - rewrite (handleRun_completes net clock s activeFile Hactive). split; reflexivity.
  - rewrite (handleRun_without_active_file net clock s Hactive). split; reflexivity.
Qed.

Lemma firstn_app_firstn {A : Type} (n : nat) (front back : list A) :
  firstn n (front ++ firstn n back)%list = firstn n (front ++ back)%list.
Proof.
  rewrite !firstn_app, firstn_firstn.
  replace (Nat.min (n - length front) n) with (n - length front)%nat by lia.
  reflexivity.
Qed.

Lemma run_history_length (net : Network) (clock : Clock) (s : Session) :
  length (history s) <= 10 -> length (history (run languageIds net clock s)) <= 10.
Proof.
  intro Hle. unfold run, after.
  destruct (findFile (activeFileId s) (files s)) as [activeFile|] eqn:Hactive.
  - rewrite (handleRun_completes net clock s activeFile Hactive).
    cbn [snd history]. apply firstn_le_length.
  - rewrite (handleRun_without_active_file net clock s Hactive). exact Hle.
Qed.

Lemma runs_history_ids (calls : list (Network * Clock)) :
  forall (s : Session) (activeFile : File.t),
    findFile (activeFileId s) (files s) = Some activeFile ->
    length (history s) <= 10 ->
    map HistoryEntry.id (history (runs languageIds calls s))
    = firstn 10 (rev (map (fun call => now (snd call)) calls)
                 ++ map HistoryEntry.id (history s))%list.
Proof.
  induction calls as [|[net clock] calls IH]; intros s activeFile Hactive Hle.
  - simpl. symmetry. apply firstn_all2. rewrite length_map. exact Hle.
  - unfold runs. simpl. fold (runs languageIds calls (run languageIds net clock s)).
    destruct (run_keeps_files net clock s) as [Hfiles Hid].
    rewrite (IH _ activeFile).
    + assert (Hhist : history (run languageIds net clock s)
                      = firstn 10 (newHistoryItem clock (runAll languageIds net s activeFile) s :: history s)).
      { unfold run, after.
        rewrite (handleRun_completes net clock s activeFile Hactive). reflexivity. }
      rewrite Hhist, <- firstn_map. cbn [map rev snd].
      rewrite firstn_app_firstn, <- app_assoc. reflexivity.
    + rewrite Hfiles, Hid. exact Hactive.
    + apply run_history_length. exact Hle.
Qed.

Lemma runs_history_length (calls : list (Network * Clock)) :
  forall s : Session,
    length (history s) <= 10 -> length (history (runs languageIds calls s)) <= 10.
Proof.
  induction calls as [|[net clock] calls IH]; intros s Hle.
  - exact Hle.
  - unfold runs. simpl. apply IH. apply run_history_length. exact Hle.
Qed.

(** C2. After any number of runs the history holds at most 10 entries.  A
    completed run puts its entry in front and keeps the first 10, so with 10
    entries stored the last one, the oldest, is the one dropped.  The ids of
    the history are the clock readings of the runs, latest first; after 11
    runs from an empty history with distinct readings, the first run is gone
    and the other ten remain, latest first. *)
Theorem history_keeps_ten_newest (calls : list (Network * Clock)) (s : Session)
  (activeFile : File.t) :
  findFile (activeFileId s) (files s) = Some activeFile ->
  length (history s) <= 10 ->
  length (history (runs languageIds calls s)) <= 10
  /\ (forall net clock,
        history (run languageIds net clock s)
        = firstn 10 (HistoryEntry.make (now clock) (isoNow clock) (language s) (files s)
                       (testCases (run languageIds net clock s)) :: history s))
  /\ (forall net clock kept oldest,
        history s = (kept ++ [oldest])%list -> length (history s) = 10 ->
        history (run languageIds net clock s)
        = HistoryEntry.make (now clock) (isoNow clock) (language s) (files s)
            (testCases (run languageIds net clock s)) :: kept)
  /\ map HistoryEntry.id (history (runs languageIds calls s))
     = firstn 10 (rev (map (fun call => now (snd call)) calls)
                  ++ map HistoryEntry.id (history s))%list
  /\ (forall first later,
        history s = [] -> calls = first :: later -> length later = 10 ->
        NoDup (map (fun call => now (snd call)) calls) ->
        map HistoryEntry.id (history (runs languageIds calls s))
        = rev (map (fun call => now (snd call)) later)
        /\ ~ In (now (snd first))
               (map HistoryEntry.id (history (runs languageIds calls s)))).
Proof.
  intros Hactive Hle.
  assert (Hrun : forall net clock,
             history (run languageIds net clock s)
             = firstn 10 (HistoryEntry.make (now clock) (isoNow clock) (language s)
                            (files s) (testCases (run languageIds net clock s))
                          :: history s)).
  { intros net clock. unfold run, after.
    rewrite (handleRun_completes net clock s activeFile Hactive). reflexivity. }
  pose proof (runs_history_ids calls s activeFile Hactive Hle) as Hids.
  split; [apply runs_history_length; exact Hle|].
  split; [exact Hrun|].
  split.
  - intros net clock kept oldest Hsplit Hten. rewrite Hrun, Hsplit.
    rewrite Hsplit, length_app in Hten. simpl in Hten.
    rewrite app_comm_cons.
    match goal with
    | |- firstn 10 ((?entry :: kept) ++ _)%list = _ =>
        replace 10 with (length (entry :: kept) + 0) by (simpl; lia)
    end.
    rewrite firstn_app_2, firstn_O, app_nil_r. reflexivity.
  - split; [exact Hids|].
    intros first later Hempty Hcalls Hlen Hnd.
    rewrite Hids, Hempty, Hcalls. cbn [map rev]. rewrite app_nil_r.
    assert (Hcut : firstn 10 (rev (map (fun call => now (snd call)) later)
                              ++ [now (snd first)])%list
                   = rev (map (fun call => now (snd call)) later)).
    { replace 10 with (length (rev (map (fun call => now (snd call)) later)) + 0)
        by (rewrite length_rev, length_map; lia).
      rewrite firstn_app_2, firstn_O, app_nil_r. reflexivity. }
    rewrite Hcut. split; [reflexivity|].
    intro Hin. apply in_rev in Hin.
    rewrite Hcalls in Hnd. simpl in Hnd. inversion Hnd as [|x l Hout _]. subst.
    apply Hout. exact Hin.
Qed.

(** ** One request per test case *)

Lemma mapFrom_length {A B : Type} (f : nat -> A -> B) (xs : list A) :
  forall i, length (JS.mapFrom i f xs) = length xs.
Proof.
  induction xs as [|x xs IH]; intro i; simpl; [reflexivity | rewrite IH; reflexivity].
Qed.

Lemma mapFrom_nth_error {A B : Type} (f : nat -> A -> B) (xs : list A) :
  forall i k, nth_error (JS.mapFrom i f xs) k = option_map (f (i + k)) (nth_error xs k).
Proof.
  induction xs as [|x xs IH]; intros i k.
  - destruct k; reflexivity.
  - destruct k as [|k]; simpl.
    + rewrite Nat.add_0_r. reflexivity.
    + rewrite IH. replace (S i + k) with (i + S k) by lia. reflexivity.
Qed.

Lemma mapFrom_keeps {A B C : Type} (f : nat -> A -> B) (g : A -> C) (h : B -> C)
  (xs : list A) :
  (forall i x, h (f i x) = g x) ->
  forall i, map h (JS.mapFrom i f xs) = map g xs.
Proof.
  intro Hkeep. induction xs as [|x xs IH]; intro i; simpl.
  - reflexivity.
  - rewrite Hkeep, IH. reflexivity.
Qed.

Lemma runTestCase_settles (tc : TestCase.t) (o : Judge.Outcome) :
  exists text verdict, runTestCase tc o = TestCase.settle text verdict tc.
Proof.
  unfold runTestCase, settleTestCase.
  destruct o as [e|data].
  - eexists; eexists; reflexivity.
  - destruct (Judge.success data).
    + destruct (Judge.result data) as [r|].
      * destruct (outputTextOf r) as [text|e]; simpl;
          eexists; eexists; reflexivity.
      * eexists; eexists; reflexivity.
    + eexists; eexists; reflexivity.
Qed.

(** C1. A run whose active file resolves commits one result per test case, in
    the order of the test cases and with their ids and inputs.  The entry of a
    test case depends on the reply to its own request only: a rejected request
    gives status [error] with the error message, a [success: false] reply gives
    status [error] with the reply's message, and a decodable successful reply
    gives its report, whatever happened to the other requests. *)
Theorem handleRun_isolates_each_request (net : Network) (clock : Clock) (s : Session)
  (activeFile : File.t) :
  findFile (activeFileId s) (files s) = Some activeFile ->
  let s' := after (handleRun languageIds net clock) s in
  let reply := fun i tc => net i (requestFor languageIds s activeFile tc) in
  length (testCases s') = length (testCases s)
  /\ map TestCase.id (testCases s') = map TestCase.id (testCases s)
  /\ map TestCase.input (testCases s') = map TestCase.input (testCases s)
  /\ (forall i tc,
        nth_error (testCases s) i = Some tc ->
        (forall e,
            reply i tc = Judge.Rejected e ->
            nth_error (testCases s') i
            = Some (TestCase.settle ("Error: " ++ e) error tc))
        /\ (forall data,
              reply i tc = Judge.Resolved data -> Judge.success data = false ->
              nth_error (testCases s') i
              = Some (TestCase.settle (JS.orElse (Judge.message data) "Unknown error")
                        error tc))
        /\ (forall data r text,
              reply i tc = Judge.Resolved data -> Judge.success data = true ->
              Judge.result data = Some r -> outputTextOf r = Normal text ->
              nth_error (testCases s') i
              = Some (TestCase.settle text (verdictOf r) tc))).
Proof.
  intros Hactive s' reply.
  assert (Hcommitted : testCases s' = runAll languageIds net s activeFile).
  { unfold s', after.
    rewrite (handleRun_completes net clock s activeFile Hactive). reflexivity. }
  rewrite Hcommitted. unfold runAll, JS.mapi.
  split; [apply mapFrom_length|].
  split.
  { apply mapFrom_keeps. intros i tc.
    destruct (runTestCase_settles tc (net i (requestFor languageIds s activeFile tc)))
      as [text [verdict Hsettled]].
    rewrite Hsettled. reflexivity. }
  split.
  { apply mapFrom_keeps. intros i tc.
    destruct (runTestCase_settles tc (net i (requestFor languageIds s activeFile tc)))
      as [text [verdict Hsettled]].
    rewrite Hsettled. reflexivity. }
  intros i tc Hnth. rewrite mapFrom_nth_error, Hnth. simpl.
  fold (reply i tc). unfold runTestCase, settleTestCase.
  split; [|split].
  - intros e Hreply. rewrite Hreply. reflexivity.
  - intros data Hreply Hfail. rewrite Hreply, Hfail. reflexivity.
  - intros data r text Hreply Hok Hresult Htext.
    rewrite Hreply, Hok, Hresult, Htext. reflexivity.
Qed.

(** The single-request [handleRun] releases the loading flag in every case. *)
Lemma handleRunSingle_releases_loading (net : Judge.Request -> Judge.Outcome)
  (s : Session) :
  isLoading (after (handleRunSingle languageIds net) s) = false.
Proof.
  unfold after, fire, handleRunSingle, bind, tryFinally, tryCatch. simpl.
  destruct (findFile (activeFileId s) (files s)) as [activeFile|]; simpl;
    [|reflexivity].
  destruct (net _) as [e|data]; simpl; [reflexivity|].
  destruct (Judge.success data); simpl; [|reflexivity].
  destruct (Judge.result data) as [res|]; simpl; [|reflexivity].
  destruct (outputTextOf res) as [text|e]; reflexivity.
Qed.

End RunFacts.

(** ** Decoding a reply of the judge *)

Lemma append_nil_r (s : string) : s ++ "" = s.
Proof. induction s as [|c s IH]; simpl; [reflexivity | rewrite IH; reflexivity]. Qed.

Lemma append_assoc (a b c : string) : (a ++ b) ++ c = a ++ (b ++ c).
Proof. induction a as [|x a IH]; simpl; [reflexivity | rewrite IH; reflexivity]. Qed.

Lemma appendDecoded_part (label : string) (field text : option string) (acc : string) :
  Spec.decodesTo field text ->
  appendDecoded label field acc = Normal (acc ++ Spec.part label text).
Proof.
  unfold Spec.decodesTo, appendDecoded. destruct field as [f|].
  - destruct (f =? "").
    + intros ->. simpl. rewrite append_nil_r. reflexivity.
    + intros [d [Hatob ->]]. unfold atobOrThrow. rewrite Hatob. reflexivity.
  - intros ->. simpl. rewrite append_nil_r. reflexivity.
Qed.

Lemma statusIdAbove3_iff (st : option Judge.Status) :
  statusIdAbove3 st = true
  <-> exists x n, st = Some x /\ Judge.id x = Some n /\ (3 < n)%Z.
Proof.
  unfold statusIdAbove3. split.
  - destruct st as [x|]; [|discriminate].
    destruct (Judge.id x) as [n|] eqn:Hid; [|discriminate].
    intro Hlt. exists x, n. repeat split; [exact Hid | apply Z.ltb_lt; exact Hlt].
  - intros [x [n [-> [Hid Hlt]]]]. rewrite Hid. apply Z.ltb_lt. exact Hlt.
Qed.

(** C5. For a successful reply whose fields are base64, the text stored for
    the test case is the report of the specification: the status line, the
    compilation output, the error output and the standard output, in this
    order and each when present, or the fixed message when none is.  The
    status is [error] exactly when [stderr] is not empty or the status id is
    above 3, and [success] otherwise.  The reply with status 3 "Accepted" and
    the base64 of "5" and a line feed as [stdout] gives the text of the
    example and status [success]. *)
Theorem successful_reply_report (r : Judge.Result)
  (compiled errors printed : option string) :
  Spec.decodesTo (Judge.compile_output r) compiled ->
  Spec.decodesTo (Judge.stderr r) errors ->
  Spec.decodesTo (Judge.stdout r) printed ->
  let text :=
    Spec.report (Spec.present (statusDescription (Judge.status r)))
      compiled errors printed in
  outputTextOf r = Normal text
  /\ (forall tc message,
        runTestCase tc (Judge.Resolved (Judge.mkResponse true message (Some r)))
        = TestCase.settle text (verdictOf r) tc)
  /\ (verdictOf r = error
      <-> (JS.truthy (Judge.stderr r) = true
           \/ exists st n,
               Judge.status r = Some st /\ Judge.id st = Some n /\ (3 < n)%Z))
  /\ (verdictOf r <> error -> verdictOf r = success)
  /\ (let accepted :=
        Judge.mkResult (Some "NQo=") None None
          (Some (Judge.mkStatus (Some 3%Z) (Some "Accepted"))) in
      outputTextOf accepted
      = Normal ("Status: Accepted" ++ LF ++ "Output:" ++ LF ++ "5" ++ LF ++ LF)
      /\ verdictOf accepted = success).
Proof.
  intros Hcompiled Herrors Hprinted text.
  assert (Htext : outputTextOf r = Normal text).
  { unfold outputTextOf.
    rewrite (appendDecoded_part _ _ _ _ Hcompiled). simpl bindC.
    rewrite (appendDecoded_part _ _ _ _ Herrors). simpl bindC.
    rewrite (appendDecoded_part _ _ _ _ Hprinted). simpl bindC.
    unfold text, Spec.report, Spec.present.
    destruct (statusDescription (Judge.status r)) as [d|]; simpl JS.truthy.
    - destruct (negb (d =? "")); simpl; rewrite ?append_assoc; reflexivity.
    - simpl. rewrite ?append_assoc. reflexivity. }
  split; [exact Htext|].
  split.
  { intros tc message. unfold runTestCase, settleTestCase. simpl.
    rewrite Htext. reflexivity. }
  split.
  { unfold verdictOf. rewrite <- statusIdAbove3_iff.
    destruct (JS.truthy (Judge.stderr r)); destruct (statusIdAbove3 (Judge.status r));
      simpl; split; intro H; try reflexivity; try discriminate; auto.
    destruct H; discriminate. }
  split.
  { unfold verdictOf.
    destruct (JS.truthy (Judge.stderr r) || statusIdAbove3 (Judge.status r));
      [intro H; exfalso; apply H; reflexivity | reflexivity]. }
  split; reflexivity.
Qed.

(** ** Renaming and the language effect *)

Section ReconcilerFacts.

Variable languageTemplates : string -> option string.

Lemma findFile_map (id : string) (g : File.t -> File.t) (fs : list File.t)
  (file : File.t) :
  (forall f, File.id (g f) = File.id f) ->
  findFile id fs = Some file ->
  findFile id (map (fun f => if File.id f =? id then g f else f) fs) = Some (g file).
Proof.
  intros Hid. unfold findFile.
  induction fs as [|a fs IH]; simpl; [discriminate|].
  destruct (File.id a =? id) eqn:Ha.
  - intro Hfound. injection Hfound as <-. rewrite Hid, Ha. reflexivity.
  - intro Hfound. rewrite Ha. apply IH. exact Hfound.
Qed.

(** What the language effect may change: the files with the active id. *)
Lemma languageEffect_changes (s : Session) :
  let s' := after (languageEffect languageTemplates) s in
  language s' = language s
  /\ activeFileId s' = activeFileId s
  /\ testCases s' = testCases s
  /\ history s' = history s
  /\ map File.id (files s') = map File.id (files s)
  /\ (forall f, In f (files s') ->
        In f (files s)
        \/ (File.id f = activeFileId s
            /\ File.language f = language s
            /\ File.content f = templateOf languageTemplates (language s))).
Proof.
  unfold after, fire, languageEffect.
  destruct (activeFileId s =? "");
    [simpl; repeat split; auto|].
  destruct (findFile (activeFileId s) (files s)) as [activeFile|];
    [|simpl; repeat split; auto].
  destruct (negb (JS.strictEq (lastPart (File.name activeFile))
                    (Some (getExtensionFromLanguage (language s)))));
    [|simpl; repeat split; auto].
  simpl. repeat split.
  - rewrite map_map. apply map_ext. intro f.
    destruct (File.id f =? activeFileId s); reflexivity.
  - intros f Hin. apply in_map_iff in Hin. destruct Hin as [g [Hf Hin]].
    destruct (File.id g =? activeFileId s) eqn:Hg.
    + right. subst f. simpl. apply String.eqb_eq in Hg. auto.
    + left. subst f. exact Hin.
Qed.

(** The effect when the extension of the active file differs. *)
Lemma languageEffect_swaps (s : Session) (activeFile : File.t) :
  activeFileId s <> "" ->
  findFile (activeFileId s) (files s) = Some activeFile ->
  lastPart (File.name activeFile) <> Some (getExtensionFromLanguage (language s)) ->
  let newName :=
    JS.interpolate (JS.first (JS.split "."%char (File.name activeFile)))
      ++ "." ++ getExtensionFromLanguage (language s) in
  files (after (languageEffect languageTemplates) s)
  = map (fun f =>
           if File.id f =? activeFileId s
           then File.retarget newName (templateOf languageTemplates (language s))
                  (language s) f
           else f) (files s).
Proof.
  intros Hid Hactive Hdiffers. unfold after, fire, languageEffect.
  rewrite (eqb_string_false _ _ Hid), Hactive.
  assert (Hneq : JS.strictEq (lastPart (File.name activeFile))
                   (Some (getExtensionFromLanguage (language s))) = false).
  { unfold JS.strictEq. destruct (lastPart (File.name activeFile)) as [e|];
      [|reflexivity].
    apply eqb_string_false. intro E. apply Hdiffers. rewrite E. reflexivity. }
  rewrite Hneq. reflexivity.
Qed.


(** [split] on a name whose first part holds no dot. *)
Lemma split_first_part (base rest : string) :
  (forall c, In c (list_ascii_of_string base) -> c <> "."%char) ->
  JS.split "."%char (base ++ "." ++ rest) = base :: JS.split "."%char rest.
Proof.
  induction base as [|c base IH]; intro Hnodot.
  - reflexivity.
  - simpl.
    assert (Hc : Ascii.eqb c "."%char = false).
    { apply Ascii.eqb_neq. apply Hnodot. left. reflexivity. }
    rewrite Hc.
    change (match JS.split "." (base ++ "." ++ rest) with
            | [] => [String c ""]
            | piece :: pieces => String c piece :: pieces
            end = String c base :: JS.split "." rest).
    rewrite IH; [reflexivity|].
    intros x Hx. apply Hnodot. right. exact Hx.
Qed.

Lemma handleRenameFile_other_extension (s : Session) (id newName newLang : string)
  (file : File.t) :
  findFile id (files s) = Some file ->
  JS.strictEq (lowerExtension (File.name file)) (lowerExtension newName) = false ->
  languageOfExtension (lowerExtension newName) = Some newLang ->
  fire (handleRenameFile languageTemplates id newName) s
  = (Normal tt,
     mkSession (theme s) newLang
       (map (fun f =>
               if File.id f =? id
               then File.retarget newName (templateOf languageTemplates newLang) newLang f
               else f) (files s))
       (activeFileId s) (testCases s) (history s) (isLoading s) (stdin s)
       (activeTab s) (output s)).
Proof.
  intros Hfile Hdiff Hlang. unfold fire, handleRenameFile.
  rewrite Hfile, Hdiff, Hlang. reflexivity.
Qed.

Lemma handleRenameFile_same_extension (s : Session) (id newName : string)
  (file : File.t) :
  findFile id (files s) = Some file ->
  JS.strictEq (lowerExtension (File.name file)) (lowerExtension newName) = true ->
  fire (handleRenameFile languageTemplates id newName) s
  = (Normal tt,
     mkSession (theme s) (language s)
       (map (fun f => if File.id f =? id then File.setName newName f else f) (files s))
       (activeFileId s) (testCases s) (history s) (isLoading s) (stdin s)
       (activeTab s) (output s)).
Proof.
  intros Hfile Hsame. unfold fire, handleRenameFile.
  rewrite Hfile, Hsame. reflexivity.
Qed.





(** C3. A rename of an existing file to a name whose extension, in lower
    case, differs from the old one and is in the extension table sets the
    language selector to the mapped language and leaves the renamed file with
    that language and its starter template, also after the language effect
    has run.  A rename that keeps the extension, compared in lower case,
    changes the name of the file and nothing else: content, language, the
    selector and the other files stay as they were. *)
Theorem rename_resets_on_new_extension_only (s : Session) (id newName : string)
  (file : File.t) :
  findFile id (files s) = Some file ->
  let renamed := dispatch languageTemplates (handleRenameFile languageTemplates id newName) s in
  (forall newLang,
      JS.strictEq (lowerExtension (File.name file)) (lowerExtension newName) = false ->
      languageOfExtension (lowerExtension newName) = Some newLang ->
      language renamed = newLang
      /\ findFile id (files (after (handleRenameFile languageTemplates id newName) s))
         = Some (File.retarget newName (templateOf languageTemplates newLang) newLang file)
      /\ In id (map File.id (files renamed))
      /\ (forall f, In f (files renamed) -> File.id f = id ->
            File.language f = newLang
            /\ File.content f = templateOf languageTemplates newLang))
  /\ (JS.strictEq (lowerExtension (File.name file)) (lowerExtension newName) = true ->
      language renamed = language s
      /\ activeFileId renamed = activeFileId s
      /\ files renamed
         = map (fun f => if File.id f =? id then File.setName newName f else f) (files s)
      /\ exists f,
          findFile id (files renamed) = Some f
          /\ File.name f = newName
          /\ File.content f = File.content file
          /\ File.language f = File.language file).
Proof.
  intros Hfile renamed. split.
  - intros newLang Hdiff Hlang.
    pose proof (handleRenameFile_other_extension s id newName newLang file
                  Hfile Hdiff Hlang) as Hfire.
    set (s1 := after (handleRenameFile languageTemplates id newName) s).
    assert (Hs1 : s1 = snd (fire (handleRenameFile languageTemplates id newName) s))
      by reflexivity.
    rewrite Hfire in Hs1. simpl in Hs1.
    assert (Hfound : findFile id (files s1)
                     = Some (File.retarget newName
                               (templateOf languageTemplates newLang) newLang file)).
    { rewrite Hs1. simpl. apply findFile_map; [reflexivity | exact Hfile]. }
    assert (Hmine : forall f, In f (files s1) -> File.id f = id ->
                      File.language f = newLang
                      /\ File.content f = templateOf languageTemplates newLang).
    { rewrite Hs1. simpl. intros f Hin Hid.
      apply in_map_iff in Hin. destruct Hin as [g [Hf Hin]].
      destruct (File.id g =? id) eqn:Hg.
      - subst f. split; reflexivity.
      - subst f. apply String.eqb_neq in Hg. contradiction. }
    assert (Hlanguage : language s1 = newLang) by (rewrite Hs1; reflexivity).
    assert (Hpresent : In id (map File.id (files s1))).
    { apply findFile_some in Hfound. destruct Hfound as [Hin Hid].
      rewrite <- Hid at 1. apply in_map. exact Hin. }
    unfold renamed, dispatch. fold s1.
    destruct ((language s1 =? language s) && (activeFileId s1 =? activeFileId s)).
    + repeat split; auto; apply Hmine; assumption.
    + destruct (languageEffect_changes s1)
        as [Hl [_ [_ [_ [Hids Hfiles]]]]].
      split; [rewrite Hl; exact Hlanguage|].
      split; [exact Hfound|].
      split; [rewrite Hids; exact Hpresent|].
      intros f Hin Hid. destruct (Hfiles f Hin) as [Hold|[_ [Hlang' Hcontent]]].
      * apply Hmine; assumption.
      * rewrite Hlang', Hcontent, Hlanguage. split; reflexivity.
  - intro Hsame.
    pose proof (handleRenameFile_same_extension s id newName file Hfile Hsame) as Hfire.
    unfold renamed, dispatch, after. rewrite Hfire. simpl.
    rewrite !String.eqb_refl. simpl.
    repeat split.
    exists (File.setName newName file). split; [|repeat split].
    apply findFile_map; [reflexivity | exact Hfile].
Qed.

End ReconcilerFacts.

(** ** Creating files *)

Lemma toString_injective (a b : Z) : JS.toString a = JS.toString b -> a = b.
Proof.
  unfold JS.toString. intro H.
  apply (f_equal NilEmpty.int_of_string) in H.
  rewrite !NilEmpty.isi in H. injection H as H.
  apply (f_equal Z.of_int) in H. rewrite !DecimalZ.of_to in H. exact H.
Qed.

Lemma NoDup_map_toString (readings : list Z) :
  NoDup readings -> NoDup (map JS.toString readings).
Proof.
  induction 1 as [|x l Hout Hnd IH]; simpl; constructor; [|exact IH].
  intro Hin. apply in_map_iff in Hin. destruct Hin as [y [Heq Hy]].
  apply toString_injective in Heq. subst y. contradiction.
Qed.

Section CreateFacts.

Variable languageTemplates : string -> option string.
Variable getTemplateForFile : string -> option string.

Lemma createFile_appends (clock : Clock) (fileName : string) (s : Session) :
  let s' := createFile languageTemplates getTemplateForFile clock fileName s in
  map File.id (files s') = (map File.id (files s) ++ [JS.toString (now clock)])%list
  /\ activeFileId s' = JS.toString (now clock).
Proof.
  unfold createFile, dispatch.
  set (s1 := after (handleCreateFile getTemplateForFile clock fileName) s).
  assert (Hids : map File.id (files s1)
                 = (map File.id (files s) ++ [JS.toString (now clock)])%list).
  { unfold s1, after, fire, handleCreateFile, bind. simpl.
    rewrite map_app. reflexivity. }
  assert (Hactive : activeFileId s1 = JS.toString (now clock)) by reflexivity.
  destruct ((language s1 =? language s) && (activeFileId s1 =? activeFileId s)).
  - split; assumption.
  - destruct (languageEffect_changes languageTemplates s1)
      as [_ [Hsame [_ [_ [Hkept _]]]]].
    simpl. rewrite Hkept, Hsame. split; assumption.
Qed.

Lemma createFiles_ids (calls : list (Clock * string)) :
  forall s : Session,
    map File.id (files (createFiles languageTemplates getTemplateForFile calls s))
    = (map File.id (files s)
       ++ map (fun call => JS.toString (now (fst call))) calls)%list.
Proof.
  induction calls as [|[clock fileName] calls IH]; intro s.
  - simpl. rewrite app_nil_r. reflexivity.
  - unfold createFiles. simpl.
    fold (createFiles languageTemplates getTemplateForFile calls
            (createFile languageTemplates getTemplateForFile clock fileName s)).
    rewrite IH.
    destruct (createFile_appends clock fileName s) as [Hids _].
    rewrite Hids, <- app_assoc. reflexivity.
Qed.

(** C10, as the code has it.  [createFile] gives the new file the decimal
    rendering of the clock reading as its id and makes it the active file.
    After any sequence of creations the ids are pairwise distinct, provided
    they were distinct before, the clock readings of the creations are
    pairwise distinct and none of them renders to an id already in use. *)
Theorem createFiles_ids_distinct_for_distinct_readings
  (calls : list (Clock * string)) (s : Session) :
  NoDup (map File.id (files s)) ->
  NoDup (map (fun call => now (fst call)) calls) ->
  (forall call, In call calls ->
     ~ In (JS.toString (now (fst call))) (map File.id (files s))) ->
  NoDup (map File.id (files (createFiles languageTemplates getTemplateForFile calls s)))
  /\ (forall clock fileName,
        let s' := createFile languageTemplates getTemplateForFile clock fileName s in
        activeFileId s' = JS.toString (now clock)
        /\ map File.id (files s')
           = (map File.id (files s) ++ [JS.toString (now clock)])%list).
Proof.
  intros Hfiles Hreadings Hfresh. split.
  - rewrite createFiles_ids. apply NoDup_app.
    + exact Hfiles.
    + rewrite <- (map_map (fun call => now (fst call)) JS.toString).
      apply NoDup_map_toString. exact Hreadings.
    + intros id Hold Hnew. apply in_map_iff in Hnew.
      destruct Hnew as [call [Hid Hcall]]. subst id.
      exact (Hfresh call Hcall Hold).
  - intros clock fileName s'.
    destruct (createFile_appends clock fileName s) as [Hids Hactive].
    split; assumption.
Qed.

End CreateFacts.

(** ** Share links *)

Section ShareFacts.

Variable compressToEncodedURIComponent : string -> string.
Variable decompressFromEncodedURIComponent : string -> option string.
Variable JSON_stringify : json -> string.
Variable JSON_parse : string -> completion json.

Lemma truthy_nonempty (v : string) : v <> "" -> JS.truthy (Some v) = true.
Proof. intro H. simpl. rewrite (eqb_string_false _ _ H). reflexivity. Qed.

(** Without a token the session comes from local storage. *)
Lemma mountEffect_without_token (storage : Boot.Storage) (s0 : Boot.State) :
  mountEffect decompressFromEncodedURIComponent JSON_parse None storage s0 = restoreFromStorage JSON_parse storage (snd (Boot.setMounted true s0)).
Proof. reflexivity. Qed.

(** A token that does not decompress leaves the session to local storage. *)
Lemma mountEffect_undecompressable (token : string) (storage : Boot.Storage)
  (s0 : Boot.State) :
  JS.truthy (decompressFromEncodedURIComponent token) = false ->
  mountEffect decompressFromEncodedURIComponent JSON_parse (Some token) storage s0 = restoreFromStorage JSON_parse storage (snd (Boot.setMounted true s0)).
Proof.
  intro Hnull. unfold mountEffect, bind, tryCatch, applyShared. simpl.
  destruct (negb (token =? "")); simpl; [|reflexivity].
  rewrite Hnull. reflexivity.
Qed.

(** A token whose text does not parse leaves the session to local storage. *)
Lemma mountEffect_unparsable (token text e : string) (storage : Boot.Storage)
  (s0 : Boot.State) :
  decompressFromEncodedURIComponent token = Some text ->
  JSON_parse text = Throw e ->
  mountEffect decompressFromEncodedURIComponent JSON_parse (Some token) storage s0 = restoreFromStorage JSON_parse storage (snd (Boot.setMounted true s0)).
Proof.
  intros Htext Hparse. unfold mountEffect, bind, tryCatch, applyShared. simpl.
  destruct (negb (token =? "")); simpl; [|reflexivity].
  rewrite Htext. simpl. destruct (negb (text =? "")); simpl; [|reflexivity].
  unfold liftC. rewrite Hparse. reflexivity.
Qed.

(** A token whose text parses to an object with a language and no files: the
    language is taken from the token, [files] and [testCases] become
    [undefined], and the rest comes from local storage. *)
Lemma mountEffect_object_without_files (token text lang : string)
  (storage : Boot.Storage) (s0 : Boot.State) :
  token <> "" ->
  decompressFromEncodedURIComponent token = Some text ->
  text <> "" ->
  JSON_parse text = Normal (JObj [("language", JStr lang)]) ->
  mountEffect decompressFromEncodedURIComponent JSON_parse (Some token) storage s0
  = restoreFromStorage JSON_parse storage
      (Boot.mkState true (Boot.theme s0) (Some (JStr lang)) None
         (Boot.activeFileId s0) None (Boot.history s0) (Boot.stdin s0)).
Proof.
  intros Htoken Htext Hnonempty Hparse.
  unfold mountEffect, bind, tryCatch, applyShared.
  rewrite (truthy_nonempty _ Htoken). unfold JS.interpolate. cbv beta iota zeta.
  rewrite Htext, (truthy_nonempty _ Hnonempty). cbv beta iota zeta.
  unfold liftC, bind. rewrite Hparse. reflexivity.
Qed.

(** C9. Loading the page with the token [handleShare] made of a session puts
    the JSON images of its language, files and test cases into the state,
    whatever local storage holds, given that the codec returns the text it
    compressed and the parser the value that was printed. *)
Theorem share_token_round_trip (r : Session) (storage : Boot.Storage)
  (s0 : Boot.State) :
  let data := ToJson.shared (language r) (files r) (testCases r) in
  let token := shareToken compressToEncodedURIComponent JSON_stringify r in
  token <> "" ->
  decompressFromEncodedURIComponent token = Some (JSON_stringify data) ->
  JSON_stringify data <> "" ->
  JSON_parse (JSON_stringify data) = Normal data ->
  exists s',
    mountEffect decompressFromEncodedURIComponent JSON_parse (Some token) storage s0 = (Normal tt, s')
    /\ Boot.language s' = Some (JStr (language r))
    /\ Boot.files s' = Some (ToJson.fileList (files r))
    /\ Boot.testCases s' = Some (ToJson.testCaseList (testCases r))
    /\ Boot.activeFileId s'
       = Some (JStr match files r with
                    | first :: _ => if File.id first =? "" then "1" else File.id first
                    | [] => "1"
                    end)
    /\ Boot.theme s' = Boot.theme s0
    /\ Boot.history s' = Boot.history s0.
Proof.
  intros data token Htoken Htext Hnonempty Hparse.
  unfold mountEffect, bind, tryCatch, applyShared.
  rewrite (truthy_nonempty _ Htoken). unfold JS.interpolate. cbv beta iota zeta.
  rewrite Htext, (truthy_nonempty _ Hnonempty). cbv beta iota zeta.
  unfold liftC, bind. rewrite Hparse.
  unfold data, ToJson.shared, ToJson.fileList. simpl.
  destruct (files r) as [|first others]; simpl.
  - eexists. split; [reflexivity|]. simpl. repeat split.
  - unfold Value.orElse. simpl.
    destruct (File.id first) as [|c rest] eqn:Hid; simpl;
      eexists; (split; [reflexivity|]); simpl; repeat split.
Qed.

End ShareFacts.

(** ** The language effect on names with one dot *)

Lemma split_without_dot (name : string) :
  (forall c, In c (list_ascii_of_string name) -> c <> "."%char) ->
  JS.split "."%char name = [name].
Proof.
  induction name as [|c name IH]; intro Hnodot.
  - reflexivity.
  - simpl.
    assert (Hc : Ascii.eqb c "."%char = false).
    { apply Ascii.eqb_neq. apply Hnodot. left. reflexivity. }
    rewrite Hc, IH; [reflexivity|].
    intros x Hx. apply Hnodot. right. exact Hx.
Qed.

(** For an active file [base.ext] with no other dot, a language whose
    extension differs from [ext] renames it to [base] with the new extension
    and gives it the template and the tag of the language. *)
Lemma languageEffect_on_plain_name (languageTemplates : string -> option string)
  (s : Session) (activeFile : File.t) (base ext : string) :
  activeFileId s <> "" ->
  findFile (activeFileId s) (files s) = Some activeFile ->
  File.name activeFile = base ++ "." ++ ext ->
  (forall c, In c (list_ascii_of_string base) -> c <> "."%char) ->
  (forall c, In c (list_ascii_of_string ext) -> c <> "."%char) ->
  ext <> getExtensionFromLanguage (language s) ->
  findFile (activeFileId s) (files (after (languageEffect languageTemplates) s))
  = Some (File.make (File.id activeFile)
            (base ++ "." ++ getExtensionFromLanguage (language s))
            (templateOf languageTemplates (language s)) (language s)).
Proof.
  intros Hid Hactive Hname Hbase Hext Hdiffers.
  assert (Hparts : JS.split "."%char (File.name activeFile) = [base; ext]).
  { rewrite Hname, (split_first_part base ext Hbase), (split_without_dot ext Hext).
    reflexivity. }
  rewrite (languageEffect_swaps languageTemplates s activeFile Hid Hactive).
  - rewrite Hparts. simpl JS.interpolate.
    apply (findFile_map (activeFileId s)
             (File.retarget (base ++ "." ++ getExtensionFromLanguage (language s))
                (templateOf languageTemplates (language s)) (language s)));
      [reflexivity | exact Hactive].
  - unfold lastPart. rewrite Hparts. simpl. intro E. injection E as E.
    contradiction.
Qed.

(** For an active file whose name starts with a dot-free part [first], a
    language with another extension renames it to [first] with the new
    extension: whatever stood between the first dot and the extension is
    dropped. *)
Lemma languageEffect_keeps_first_part_only (languageTemplates : string -> option string)
  (s : Session) (activeFile : File.t) (first rest : string) :
  activeFileId s <> "" ->
  findFile (activeFileId s) (files s) = Some activeFile ->
  File.name activeFile = first ++ "." ++ rest ->
  (forall c, In c (list_ascii_of_string first) -> c <> "."%char) ->
  lastPart (File.name activeFile) <> Some (getExtensionFromLanguage (language s)) ->
  findFile (activeFileId s) (files (after (languageEffect languageTemplates) s))
  = Some (File.make (File.id activeFile)
            (first ++ "." ++ getExtensionFromLanguage (language s))
            (templateOf languageTemplates (language s)) (language s)).
Proof.
  intros Hid Hactive Hname Hfirst Hdiffers.
  rewrite (languageEffect_swaps languageTemplates s activeFile Hid Hactive Hdiffers).
  rewrite Hname, (split_first_part first rest Hfirst). simpl JS.interpolate.
  apply (findFile_map (activeFileId s)
           (File.retarget (first ++ "." ++ getExtensionFromLanguage (language s))
              (templateOf languageTemplates (language s)) (language s)));
    [reflexivity | exact Hactive].
Qed.

(** A field that is not base64 turns the entry into an error entry. *)
Lemma undecodable_stdout_is_an_error (tc : TestCase.t) (message : option string)
  (printed : string) (st : option Judge.Status) :
  printed <> "" ->
  Base64.atob printed = None ->
  runTestCase tc
    (Judge.Resolved
       (Judge.mkResponse true message (Some (Judge.mkResult (Some printed) None None st))))
  = TestCase.settle ("Error: " ++ Base64.invalidCharacter) error tc.
Proof.
  intros Hnonempty Hinvalid.
  unfold runTestCase, settleTestCase, outputTextOf, appendDecoded, atobOrThrow.
  cbn [Judge.success Judge.result Judge.compile_output Judge.stderr Judge.stdout bindC].
  rewrite (eqb_string_false _ _ Hnonempty), Hinvalid. reflexivity.
Qed.

(** ** Concrete sessions *)

(** Switching from javascript to python while [main.js] is active gives
    [main.py] with the Python template. *)
Example selectLanguage_python_on_main_js :
  files (selectLanguage Sample.languageTemplates "python" initialSession)
  = [File.make "1" "main.py" "print('Hello, World!')" "python"].
Proof. reflexivity. Qed.

(** Selecting the language the active file already has changes nothing. *)
Example selectLanguage_javascript_on_main_js :
  selectLanguage Sample.languageTemplates "javascript" initialSession = initialSession.
Proof. reflexivity. Qed.

(** C4. The tab bar accepts the name [my.test.js]; with that file active, the
    switch to python names it [my.py]: the part [test] of the name before the
    extension is lost. *)
Theorem selectLanguage_loses_inner_name_parts :
  let s := commitRename Sample.languageTemplates (Some "1") "my.test.js" initialSession in
  files s = [File.make "1" "my.test.js" (File.content initialFile) "javascript"]
  /\ files (selectLanguage Sample.languageTemplates "python" s)
     = [File.make "1" "my.py" "print('Hello, World!')" "python"].
Proof. split; reflexivity. Qed.

(** C6. A run, a new file and the restoration of the run from the history
    leave the active id on the file that is gone.  [handleRun] then sets the
    loading flag, returns before its [try], and the flag stays set. *)
Theorem handleRun_keeps_loading_without_active_file :
  let s1 := run Sample.languageIds Sample.offline (mkClock 1700000000000 "") initialSession in
  let s2 :=
    createFile Sample.languageTemplates Sample.getTemplateForFile
      (mkClock 1700000000001 "") "util.js" s1 in
  let s3 :=
    match history s2 with
    | item :: _ => dispatch Sample.languageTemplates (restoreFromHistory item true) s2
    | [] => s2
    end in
  isLoading s3 = false
  /\ findFile (activeFileId s3) (files s3) = None
  /\ fst (fire (handleRun Sample.languageIds Sample.offline (mkClock 1700000000002 "")) s3)
     = Normal tt
  /\ isLoading (after (handleRun Sample.languageIds Sample.offline (mkClock 1700000000002 "")) s3)
     = true.
Proof. vm_compute. repeat split. Qed.

(** C8. A token whose text is an object with a language and no files: the
    failure is caught and local storage, here empty, is read, yet the
    language of the token has replaced the session's and [files] and
    [testCases] are [undefined]. *)
Theorem mountEffect_applies_part_of_a_corrupt_payload :
  let token := Sample.compress (Sample.stringify (JObj [("language", JStr "python")])) in
  let outcome :=
    mountEffect Sample.decompress Sample.parse (Some token) Boot.emptyStorage
      (firstRender initialSession) in
  fst outcome = Normal tt
  /\ Boot.language (snd outcome) = Some (JStr "python")
  /\ Boot.files (snd outcome) = None
  /\ Boot.testCases (snd outcome) = None
  /\ Boot.activeFileId (snd outcome) = Some (JStr "1").
Proof. vm_compute. repeat split. Qed.

(** Against C10 as stated: two files created at the same clock reading share
    their id. *)
Lemma createFile_same_reading_shares_id :
  let clock := mkClock 1700000000000 "2023-11-14T22:13:20.000Z" in
  let s :=
    createFiles Sample.languageTemplates Sample.getTemplateForFile
      [(clock, "a.js"); (clock, "b.js")] initialSession in
  ~ NoDup (map File.id (files s)).
Proof.
  intros clock s Hnd.
  assert (Hids : map File.id (files s) = ["1"; "1700000000000"; "1700000000000"])
    by (vm_compute; reflexivity).
  rewrite Hids in Hnd.
  inversion Hnd as [|x l _ Hrest]. subst.
  inversion Hrest as [|y l' Hout _]. subst.
  apply Hout. left. reflexivity.
Qed.

(** ** The theorems at concrete sessions *)

Lemma handleRun_isolates_each_request_witness :
  let s := snd (setTestCases Sample.threeTestCases initialSession) in
  let s' :=
    after (handleRun Sample.languageIds Sample.secondFails (mkClock 1700000000000 "")) s in
  findFile (activeFileId s) (files s) = Some initialFile
  /\ length (testCases s') = 3
  /\ nth_error (testCases s') 1
     = Some (TestCase.make 2 "2 3" (Some "Error: Failed to fetch") error)
  /\ nth_error (testCases s') 2
     = Some (TestCase.make 3 "0 5"
               (Some ("Status: Accepted" ++ LF ++ "Output:" ++ LF ++ "5" ++ LF ++ LF))
               success).
Proof.
  intros s s'. split; [reflexivity|].
  pose proof (handleRun_isolates_each_request Sample.languageIds Sample.secondFails
                (mkClock 1700000000000 "") s initialFile eq_refl) as H.
  cbv zeta in H. destruct H as [Hlen [_ [_ Hnth]]].
  split; [exact Hlen|]. split.
  - destruct (Hnth 1 (TestCase.make 2 "2 3" None pending) eq_refl) as [Hrejected _].
    exact (Hrejected "Failed to fetch" eq_refl).
  - destruct (Hnth 2 (TestCase.make 3 "0 5" None pending) eq_refl) as [_ [_ Hdecoded]].
    exact (Hdecoded _ Sample.accepted _ eq_refl eq_refl eq_refl eq_refl).
Defined.

Lemma history_keeps_ten_newest_witness :
  let s := runs Sample.languageIds Sample.elevenRuns initialSession in
  findFile (activeFileId initialSession) (files initialSession) = Some initialFile
  /\ length (history initialSession) <= 10
  /\ length (history s) <= 10
  /\ map HistoryEntry.id (history s)
     = [1700000000011; 1700000000010; 1700000000009; 1700000000008; 1700000000007;
        1700000000006; 1700000000005; 1700000000004; 1700000000003; 1700000000002]%Z
  /\ ~ In 1700000000001%Z (map HistoryEntry.id (history s)).
Proof.
  intro s.
  assert (Hlen : length (history initialSession) <= 10) by (simpl; lia).
  split; [reflexivity|]. split; [exact Hlen|].
  destruct (history_keeps_ten_newest Sample.languageIds Sample.elevenRuns
              initialSession initialFile eq_refl Hlen)
    as [Hbound [_ [_ [_ Heleven]]]].
  split; [exact Hbound|].
  assert (Hnd : NoDup (map (fun call : Network * Clock => now (snd call))
                         Sample.elevenRuns)).
  { vm_compute. repeat (constructor; [simpl; intuition lia|]). constructor. }
  destruct (Heleven (Sample.offline, mkClock 1700000000001 "")
              (tl Sample.elevenRuns) eq_refl eq_refl eq_refl Hnd)
    as [Hids Hgone].
  split; [exact Hids | exact Hgone].
Defined.

Lemma rename_resets_on_new_extension_only_witness :
  let rename := fun newName =>
    dispatch Sample.languageTemplates
      (handleRenameFile Sample.languageTemplates "1" newName) initialSession in
  findFile "1" (files initialSession) = Some initialFile
  /\ language (rename "main.PY") = "python"
  /\ (forall f, In f (files (rename "main.PY")) -> File.id f = "1" ->
         File.language f = "python" /\ File.content f = "print('Hello, World!')")
  /\ files (rename "app.JS") = [File.setName "app.JS" initialFile].
Proof.
  intro rename. split; [reflexivity|].
  destruct (rename_resets_on_new_extension_only Sample.languageTemplates
              initialSession "1" "main.PY" initialFile eq_refl) as [Hnew _].
  destruct (rename_resets_on_new_extension_only Sample.languageTemplates
              initialSession "1" "app.JS" initialFile eq_refl) as [_ Hsame].
  destruct (Hnew "python" eq_refl eq_refl) as [Hlanguage [_ [_ Hfile]]].
  destruct (Hsame eq_refl) as [_ [_ [Hfiles _]]].
  split; [exact Hlanguage|]. split; [exact Hfile | exact Hfiles].
Defined.

Lemma successful_reply_report_witness :
  let r :=
    Judge.mkResult (Some "NQo=") (Some "b29wcw==") None
      (Some (Judge.mkStatus (Some 11%Z) (Some "Runtime Error (NZEC)"))) in
  Spec.decodesTo (Judge.compile_output r) None
  /\ Spec.decodesTo (Judge.stderr r) (Some "oops")
  /\ Spec.decodesTo (Judge.stdout r) (Some ("5" ++ LF))
  /\ outputTextOf r
     = Normal ("Status: Runtime Error (NZEC)" ++ LF ++ "Error:" ++ LF ++ "oops" ++ LF
               ++ "Output:" ++ LF ++ "5" ++ LF ++ LF)
  /\ verdictOf r = error.
Proof.
  intro r.
  assert (Hcompiled : Spec.decodesTo (Judge.compile_output r) None) by reflexivity.
  assert (Herrors : Spec.decodesTo (Judge.stderr r) (Some "oops"))
    by (exists "oops"; split; reflexivity).
  assert (Hprinted : Spec.decodesTo (Judge.stdout r) (Some ("5" ++ LF)))
    by (exists ("5" ++ LF); split; reflexivity).
  split; [exact Hcompiled|]. split; [exact Herrors|]. split; [exact Hprinted|].
  destruct (successful_reply_report r None (Some "oops") (Some ("5" ++ LF))
              Hcompiled Herrors Hprinted) as [Htext [_ [Hverdict _]]].
  split; [exact Htext|].
  apply Hverdict. left. reflexivity.
Defined.

Lemma share_token_round_trip_witness :
  let data :=
    ToJson.shared (language initialSession) (files initialSession)
      (testCases initialSession) in
  let token := shareToken Sample.compress Sample.stringify initialSession in
  let storage :=
    Boot.mkStorage None (Some "cpp") (Some "[]") (Some "7") (Some "[]") None None in
  token <> ""
  /\ Sample.decompress token = Some (Sample.stringify data)
  /\ Sample.stringify data <> ""
  /\ Sample.parse (Sample.stringify data) = Normal data
  /\ exists s',
      mountEffect Sample.decompress Sample.parse (Some token) storage
        (firstRender initialSession) = (Normal tt, s')
      /\ Boot.language s' = Some (JStr "javascript")
      /\ Boot.files s' = Some (ToJson.fileList [initialFile])
      /\ Boot.testCases s' = Some (ToJson.testCaseList (testCases initialSession)).
Proof.
  intros data token storage.
  assert (Htoken : token <> "") by (vm_compute; discriminate).
  assert (Htext : Sample.decompress token = Some (Sample.stringify data))
    by (vm_compute; reflexivity).
  assert (Hnonempty : Sample.stringify data <> "") by (vm_compute; discriminate).
  assert (Hparse : Sample.parse (Sample.stringify data) = Normal data)
    by (vm_compute; reflexivity).
  split; [exact Htoken|]. split; [exact Htext|]. split; [exact Hnonempty|].
  split; [exact Hparse|].
  destruct (share_token_round_trip Sample.compress Sample.decompress Sample.stringify
              Sample.parse initialSession storage (firstRender initialSession)
              Htoken Htext Hnonempty Hparse)
    as [s' [Hmount [Hlanguage [Hfiles [Htests _]]]]].
  exists s'. split; [exact Hmount|]. split; [exact Hlanguage|].
  split; [exact Hfiles | exact Htests].
Defined.

Lemma createFiles_ids_distinct_for_distinct_readings_witness :
  let calls :=
    [(mkClock 1700000000000 "", "util.js"); (mkClock 1700000000001 "", "lib.py")] in
  let s :=
    createFiles Sample.languageTemplates Sample.getTemplateForFile calls initialSession in
  NoDup (map File.id (files initialSession))
  /\ NoDup (map (fun call : Clock * string => now (fst call)) calls)
  /\ (forall call, In call calls ->
        ~ In (JS.toString (now (fst call))) (map File.id (files initialSession)))
  /\ NoDup (map File.id (files s))
  /\ map File.id (files s) = ["1"; "1700000000000"; "1700000000001"].
Proof.
  intros calls s.
  assert (Hfiles : NoDup (map File.id (files initialSession)))
    by (simpl; repeat constructor; simpl; intuition).
  assert (Hreadings : NoDup (map (fun call : Clock * string => now (fst call)) calls)).
  { simpl. repeat (constructor; [simpl; intuition lia|]). constructor. }
  assert (Hfresh : forall call, In call calls ->
            ~ In (JS.toString (now (fst call))) (map File.id (files initialSession))).
  { intros call [<-|[<-|[]]]; vm_compute; intros [H|[]]; discriminate. }
  split; [exact Hfiles|]. split; [exact Hreadings|]. split; [exact Hfresh|].
  destruct (createFiles_ids_distinct_for_distinct_readings Sample.languageTemplates
              Sample.getTemplateForFile calls initialSession Hfiles Hreadings Hfresh)
    as [Hdistinct _].
  split; [exact Hdistinct | reflexivity].
Defined.

(** * Further properties of the component *)

(** ** Typing in the editor *)

Lemma map_if_absent (id : string) (g : File.t -> File.t) (fs : list File.t) :
  findFile id fs = None ->
  map (fun f => if File.id f =? id then g f else f) fs = fs.
Proof.
  unfold findFile. induction fs as [|a fs IH]; simpl; [reflexivity|].
  destruct (File.id a =? id); [discriminate|].
  intro Hnone. rewrite IH by exact Hnone. reflexivity.
Qed.

(** X1. What is typed becomes the code shown for the active file: after
    [handleCodeChange] the derived [currentCode] is the new text, while the
    ids, names and language tags of all files, the files with another id, the
    selector and the active id stay as they were.  Without a file for the
    active id the handler changes nothing. *)
Theorem handleCodeChange_sets_current_code (newCode : string) (s : Session) :
  (forall active,
      findFile (activeFileId s) (files s) = Some active ->
      let s' := after (handleCodeChange newCode) s in
      currentCode s' = newCode
      /\ map File.id (files s') = map File.id (files s)
      /\ map File.name (files s') = map File.name (files s)
      /\ map File.language (files s') = map File.language (files s)
      /\ (forall f, In f (files s) -> File.id f <> activeFileId s -> In f (files s'))
      /\ language s' = language s
      /\ activeFileId s' = activeFileId s)
  /\ (findFile (activeFileId s) (files s) = None ->
      fire (handleCodeChange newCode) s = (Normal tt, s)).
Proof.
  split.
  - intros active Hactive s'.
    assert (Hfiles : files s'
                     = map (fun f => if File.id f =? activeFileId s
                                     then File.setContent newCode f else f) (files s))
      by reflexivity.
    split.
    { unfold currentCode. change (activeFileId s') with (activeFileId s).
      rewrite Hfiles.
      rewrite (findFile_map (activeFileId s) (File.setContent newCode) (files s) active);
        [|reflexivity|exact Hactive].
      simpl. destruct (newCode =? "") eqn:Hempty; [|reflexivity].
      apply String.eqb_eq in Hempty. symmetry. exact Hempty. }
    rewrite Hfiles.
    repeat split.
    + rewrite map_map. apply map_ext. intro f.
      destruct (File.id f =? activeFileId s); reflexivity.
    + rewrite map_map. apply map_ext. intro f.
      destruct (File.id f =? activeFileId s); reflexivity.
    + rewrite map_map. apply map_ext. intro f.
      destruct (File.id f =? activeFileId s); reflexivity.
    + intros f Hin Hother. apply in_map_iff. exists f.
      rewrite (eqb_string_false _ _ Hother). split; [reflexivity | exact Hin].
  - intro Hnone. unfold fire, handleCodeChange, updateFiles, setFiles.
    rewrite (map_if_absent _ _ _ Hnone). destruct s; reflexivity.
Qed.

Lemma handleCodeChange_sets_current_code_witness :
  findFile (activeFileId initialSession) (files initialSession) = Some initialFile
  /\ currentCode (after (handleCodeChange "let x = 1;") initialSession) = "let x = 1;"
  /\ currentCode (after handleClear initialSession) = "".
Proof.
  split; [reflexivity|].
  destruct (handleCodeChange_sets_current_code "let x = 1;" initialSession)
    as [Htyped _].
  destruct (handleCodeChange_sets_current_code "" initialSession) as [Hcleared _].
  split.
  - exact (proj1 (Htyped initialFile eq_refl)).
  - exact (proj1 (Hcleared initialFile eq_refl)).
Defined.

(** ** The font size of the editor *)

Lemma click_in_bounds (c : Editor.Click) (size : Z) :
  (10 <= size <= 32)%Z -> (10 <= Editor.click c size <= 32)%Z.
Proof.
  intro H. destruct c; unfold Editor.click, Editor.handleZoomIn, Editor.handleZoomOut; lia.
Qed.

Lemma click_even (c : Editor.Click) (size : Z) :
  (exists k, size = 2 * k)%Z -> (exists k, Editor.click c size = 2 * k)%Z.
Proof.
  intros [k Hk]. subst size.
  destruct c; unfold Editor.click, Editor.handleZoomIn, Editor.handleZoomOut.
  - destruct (Z.le_gt_cases (2 * k + 2) 32).
    + exists (k + 1)%Z. lia.
    + exists 16%Z. lia.
  - destruct (Z.le_gt_cases 10 (2 * k - 2)).
    + exists (k - 1)%Z. lia.
    + exists 5%Z. lia.
Qed.

(** X2. Whatever zoom buttons are clicked, a font size between 10 and 32
    stays between 10 and 32 and an even one stays even; zooming in and then
    out gives the size back unless it was above 30, where zooming in stops
    at 32. *)
Theorem zoom_keeps_font_size_in_range (cs : list Editor.Click) (size : Z) :
  (10 <= size <= 32)%Z ->
  (10 <= Editor.clicks cs size <= 32)%Z
  /\ ((exists k, size = 2 * k)%Z -> (exists k, Editor.clicks cs size = 2 * k)%Z)
  /\ ((size <= 30)%Z -> Editor.handleZoomOut (Editor.handleZoomIn size) = size)
  /\ ((30 <= size)%Z -> Editor.handleZoomIn size = 32%Z).
Proof.
  intro Hrange. split; [|split; [|split]].
  - revert size Hrange. induction cs as [|c cs IH]; intros size Hrange.
    + exact Hrange.
    + apply IH. apply click_in_bounds. exact Hrange.
  - revert size Hrange. induction cs as [|c cs IH]; intros size Hrange Heven.
    + exact Heven.
    + apply IH; [apply click_in_bounds; exact Hrange | apply click_even; exact Heven].
  - intro Hle. unfold Editor.handleZoomOut, Editor.handleZoomIn. lia.
  - intro Hge. unfold Editor.handleZoomIn. lia.
Qed.

Lemma zoom_keeps_font_size_in_range_witness :
  (10 <= Editor.initialFontSize <= 32)%Z
  /\ (10 <= Editor.clicks (repeat Editor.ZoomIn 20) Editor.initialFontSize <= 32)%Z
  /\ Editor.clicks (repeat Editor.ZoomIn 20) Editor.initialFontSize = 32%Z
  /\ Editor.clicks (repeat Editor.ZoomOut 20) Editor.initialFontSize = 10%Z.
Proof.
  assert (Hrange : (10 <= Editor.initialFontSize <= 32)%Z)
    by (unfold Editor.initialFontSize; lia).
  split; [exact Hrange|].
  split.
  - exact (proj1 (zoom_keeps_font_size_in_range (repeat Editor.ZoomIn 20)
                    Editor.initialFontSize Hrange)).
  - split; reflexivity.
Defined.

(** ** The language effect settles the active file *)





Lemma findFile_in (id : string) (fs : list File.t) :
  In id (map File.id fs) -> exists f, findFile id fs = Some f.
Proof.
  intro Hin. destruct (findFile id fs) as [f|] eqn:Hfind.
  - exists f. reflexivity.
  - exfalso. exact (findFile_none id fs Hfind Hin).
Qed.


Section SettleFacts.

Variable languageTemplates : string -> option string.
Variable getTemplateForFile : string -> option string.


End SettleFacts.



Section ReconcileFacts.

Variable languageTemplates : string -> option string.
Variable getTemplateForFile : string -> option string.



End ReconcileFacts.



(** ** Creating a file under a selected language *)

Section CreateSettleFacts.

Variable languageTemplates : string -> option string.
Variable getTemplateForFile : string -> option string.


End CreateSettleFacts.


(** ** The session stays well formed *)

Lemma NoDup_map_filter {A B : Type} (g : A -> B) (p : A -> bool) (xs : list A) :
  NoDup (map g xs) -> NoDup (map g (filter p xs)).
Proof.
  induction xs as [|a xs IH]; simpl; intro Hnd; [constructor|].
  inversion Hnd as [|y l Hout Hrest]. subst.
  destruct (p a); simpl; [|apply IH; exact Hrest].
  constructor; [|apply IH; exact Hrest].
  intro Hin. apply Hout. apply in_map_iff in Hin. destruct Hin as [x [Hx Hin]].
  apply filter_In in Hin. apply in_map_iff. exists x. split; [exact Hx | apply Hin].
Qed.

Lemma filter_leaves_a_file (id : string) (fs : list File.t) :
  NoDup (map File.id fs) -> 1 < length fs ->
  filter (fun f => negb (File.id f =? id)) fs <> [].
Proof.
  destruct fs as [|a [|b rest]]; simpl; intros Hnd Hlen; try lia.
  destruct (File.id a =? id) eqn:Ha; simpl; [|discriminate].
  destruct (File.id b =? id) eqn:Hb; simpl; [|discriminate].
  apply String.eqb_eq in Ha, Hb. exfalso.
  inversion Hnd as [|y l Hout _]. subst. apply Hout. left. congruence.
Qed.

Lemma handleDeleteFile_keeps_wellformed (id : string) (s : Session) :
  WellFormed s -> WellFormed (after (handleDeleteFile id) s).
Proof.
  intros [Hnd Hactive]. unfold after, fire, handleDeleteFile.
  destruct (length (files s) <=? 1)%nat eqn:Hlen; [split; assumption|].
  apply Nat.leb_gt in Hlen.
  pose proof (filter_leaves_a_file id (files s) Hnd Hlen) as Hleft.
  pose proof (NoDup_map_filter File.id (fun f => negb (File.id f =? id)) (files s) Hnd)
    as Hkept.
  unfold bind, setFiles. cbn [fst snd].
  destruct (activeFileId s =? id) eqn:Hsame.
  - destruct (filter (fun f => negb (File.id f =? id)) (files s)) as [|first rest];
      [contradiction|].
    split; [exact Hkept | left; reflexivity].
  - split; [exact Hkept|]. cbn [files activeFileId snd].
    apply String.eqb_neq in Hsame.
    apply in_map_iff in Hactive. destruct Hactive as [f [Hf Hin]].
    apply in_map_iff. exists f. split; [exact Hf|].
    apply filter_In. split; [exact Hin|].
    rewrite Hf, (eqb_string_false _ _ Hsame). reflexivity.
Qed.

Section InvariantFacts.

Variable languageTemplates : string -> option string.
Variable languageIds : string -> option Z.
Variable getTemplateForFile : string -> option string.

Lemma languageEffect_keeps_wellformed (s : Session) :
  WellFormed s -> WellFormed (after (languageEffect languageTemplates) s).
Proof.
  intros [Hnd Hactive].
  destruct (languageEffect_changes languageTemplates s)
    as [_ [Hsame [_ [_ [Hids _]]]]].
  unfold WellFormed. rewrite Hids, Hsame. split; assumption.
Qed.

Lemma dispatch_keeps_wellformed (h : Handler) (s : Session) :
  WellFormed (after h s) -> WellFormed (dispatch languageTemplates h s).
Proof.
  intro Hafter. unfold dispatch.
  destruct ((language (after h s) =? language s)
            && (activeFileId (after h s) =? activeFileId s));
    [exact Hafter | apply languageEffect_keeps_wellformed; exact Hafter].
Qed.

Lemma handleRenameFile_keeps_ids (id newName : string) (s : Session) :
  map File.id (files (after (handleRenameFile languageTemplates id newName) s))
  = map File.id (files s)
  /\ activeFileId (after (handleRenameFile languageTemplates id newName) s)
     = activeFileId s.
Proof.
  unfold after, fire, handleRenameFile.
  destruct (findFile id (files s)) as [file|]; [|split; reflexivity].
  destruct (negb (JS.strictEq (lowerExtension (File.name file)) (lowerExtension newName)));
    [destruct (languageOfExtension (lowerExtension newName)) as [newLang|]|];
    cbn; (split; [|reflexivity]);
    rewrite map_map; apply map_ext; intro f;
    destruct (File.id f =? id); reflexivity.
Qed.

Lemma editorChanged_keeps_ids (value : option string) (s : Session) :
  map File.id (files (after (editorChanged value) s)) = map File.id (files s)
  /\ activeFileId (after (editorChanged value) s) = activeFileId s.
Proof.
  split; [|reflexivity]. cbn. rewrite map_map. apply map_ext. intro f.
  destruct (File.id f =? activeFileId s); reflexivity.
Qed.

Lemma step_keeps_wellformed (e : Event) (s : Session) :
  WellFormed s -> possible e s ->
  WellFormed (step languageTemplates languageIds getTemplateForFile e s).
Proof.
  intros Hwf Hpossible. pose proof Hwf as [Hnd Hactive].
  destruct e as [value|clock fileName|id|editingId editName|lang|id|net clock];
    cbn [step].
  - apply dispatch_keeps_wellformed.
    destruct (editorChanged_keeps_ids value s) as [Hids Hsame].
    unfold WellFormed. rewrite Hids, Hsame. exact Hwf.
  - destruct (createFile_appends languageTemplates getTemplateForFile clock fileName s)
      as [Hids Hnew].
    unfold WellFormed. rewrite Hids, Hnew. split.
    + apply NoDup_app; [exact Hnd | repeat constructor; intros [] |].
      intros x Hold [Hx|[]]. subst x. exact (Hpossible Hold).
    + apply in_or_app. right. left. reflexivity.
  - apply dispatch_keeps_wellformed. apply handleDeleteFile_keeps_wellformed. exact Hwf.
  - unfold commitRename.
    destruct (saveEditing editingId editName) as [|text|id newName]; try exact Hwf.
    apply dispatch_keeps_wellformed.
    destruct (handleRenameFile_keeps_ids id newName s) as [Hids Hsame].
    unfold WellFormed. rewrite Hids, Hsame. exact Hwf.
  - apply dispatch_keeps_wellformed. exact Hwf.
  - apply dispatch_keeps_wellformed. split; [exact Hnd | exact Hpossible].
  - apply dispatch_keeps_wellformed.
    destruct (run_keeps_files languageIds net clock s) as [Hfiles Hsame].
    unfold run in Hfiles, Hsame. unfold WellFormed. rewrite Hfiles, Hsame. exact Hwf.
Qed.

(** X6. Typing, creating a file under a clock reading that is no id yet,
    deleting, renaming from the tab bar, selecting a language, clicking a
    shown tab and running keep the ids of the files distinct and the active
    id among them, whatever their order and number.  So the list of files is
    never empty and every run pressed in such a session ends with the loading
    flag released. *)
Theorem possible_events_keep_session_wellformed (es : list Event) (s : Session) :
  WellFormed s ->
  allPossible languageTemplates languageIds getTemplateForFile es s ->
  let s' := steps languageTemplates languageIds getTemplateForFile es s in
  WellFormed s'
  /\ files s' <> []
  /\ forall net clock,
      isLoading (step languageTemplates languageIds getTemplateForFile
                   (RunPressed net clock) s') = false.
Proof.
  intros Hwf Hall s'.
  assert (Hwf' : WellFormed s').
  { unfold s'. clear s'. revert s Hwf Hall.
    induction es as [|e es IH]; intros s Hwf Hall; [exact Hwf|].
    destruct Hall as [Hpossible Hrest].
    unfold steps. cbn [fold_left].
    apply IH; [apply step_keeps_wellformed; assumption | exact Hrest]. }
  split; [exact Hwf'|].
  destruct Hwf' as [_ Hactive].
  split.
  - intro Hempty. rewrite Hempty in Hactive. exact Hactive.
  - intros net clock. cbn [step].
    destruct (findFile_in _ _ Hactive) as [activeFile Hfound].
    unfold dispatch, after.
    rewrite (handleRun_completes languageIds net clock s' activeFile Hfound).
    cbn [snd language activeFileId]. rewrite !String.eqb_refl. reflexivity.
Qed.

End InvariantFacts.

Lemma possible_events_keep_session_wellformed_witness :
  let es :=
    [FileCreated (mkClock 1700000000000 "") "notes.py";
     Typed (Some "let n = 2;");
     RenameTyped (Some "1700000000000") "notes.cpp";
     TabClicked "1";
     FileDeleted "1";
     LanguageSelected "java";
     FileDeleted "1700000000000";
     RunPressed Sample.offline (mkClock 1700000000009 "")] in
  let s' :=
    steps Sample.languageTemplates Sample.languageIds Sample.getTemplateForFile es
      initialSession in
  WellFormed initialSession
  /\ allPossible Sample.languageTemplates Sample.languageIds Sample.getTemplateForFile
       es initialSession
  /\ WellFormed s'
  /\ map File.name (files s') = ["notes.java"]
  /\ isLoading s' = false.
Proof.
  intros es s'.
  assert (Hwf : WellFormed initialSession).
  { split; simpl; [repeat constructor; intros [] | left; reflexivity]. }
  assert (Hall : allPossible Sample.languageTemplates Sample.languageIds
                   Sample.getTemplateForFile es initialSession).
  { cbn [allPossible es possible]. repeat split.
    - vm_compute. intros [H|[]]. discriminate.
    - vm_compute. left. reflexivity. }
  split; [exact Hwf|]. split; [exact Hall|].
  destruct (possible_events_keep_session_wellformed Sample.languageTemplates
              Sample.languageIds Sample.getTemplateForFile es initialSession Hwf Hall)
    as [Hwf' _].
  split; [exact Hwf'|]. split; vm_compute; reflexivity.
Defined.

(** ** Deleting when ids collide *)

Lemma filter_removes_all (id : string) (fs : list File.t) :
  (forall f, In f fs -> File.id f = id) ->
  filter (fun f => negb (File.id f =? id)) fs = [].
Proof.
  induction fs as [|a fs IH]; intro Hall; simpl; [reflexivity|].
  rewrite (Hall a (or_introl eq_refl)), String.eqb_refl. simpl.
  apply IH. intros f Hin. apply Hall. right. exact Hin.
Qed.

(** X7. When two or more files all carry the id to delete and that id is the
    active one, [handleDeleteFile] empties the list of files and then throws
    on reading the id of the first remaining file. *)
Theorem handleDeleteFile_throws_when_every_file_has_the_id (s : Session) (id : string) :
  1 < length (files s) ->
  (forall f, In f (files s) -> File.id f = id) ->
  activeFileId s = id ->
  fire (handleDeleteFile id) s = (Throw readIdOfUndefined, snd (setFiles [] s)).
Proof.
  intros Hlen Hall Hactive. unfold fire, handleDeleteFile.
  assert (Hleb : (length (files s) <=? 1)%nat = false) by (apply Nat.leb_gt; exact Hlen).
  rewrite Hleb, (filter_removes_all id (files s) Hall), Hactive.
  unfold bind. cbn [setFiles]. rewrite String.eqb_refl. reflexivity.
Qed.

Lemma handleDeleteFile_throws_when_every_file_has_the_id_witness :
  let clock := mkClock 1700000000000 "" in
  let created :=
    createFiles Sample.languageTemplates Sample.getTemplateForFile
      [(clock, "a.js"); (clock, "b.js")] initialSession in
  let s := dispatch Sample.languageTemplates (handleDeleteFile "1") created in
  1 < length (files s)
  /\ (forall f, In f (files s) -> File.id f = "1700000000000")
  /\ activeFileId s = "1700000000000"
  /\ fst (fire (handleDeleteFile "1700000000000") s) = Throw readIdOfUndefined
  /\ files (after (handleDeleteFile "1700000000000") s) = [].
Proof.
  intros clock created s.
  assert (Hlen : 1 < length (files s)) by (vm_compute; lia).
  assert (Hall : forall f, In f (files s) -> File.id f = "1700000000000").
  { intros f Hin. vm_compute in Hin. destruct Hin as [<-|[<-|[]]]; reflexivity. }
  assert (Hactive : activeFileId s = "1700000000000") by (vm_compute; reflexivity).
  split; [exact Hlen|]. split; [exact Hall|]. split; [exact Hactive|].
  pose proof (handleDeleteFile_throws_when_every_file_has_the_id s "1700000000000"
                Hlen Hall Hactive) as Hfire.
  unfold after. rewrite Hfire. split; reflexivity.
Defined.

(** ** Names the tab bar refuses *)




(** ** What a run leaves behind *)

Lemma orElse_self (x : string) : JS.orElse (Some x) "" = x.
Proof.
  unfold JS.orElse. destruct (x =? "") eqn:Hx; [|reflexivity].
  apply String.eqb_eq in Hx. symmetry. exact Hx.
Qed.

Section RunMoreFacts.

Variable languageTemplates : string -> option string.
Variable languageIds : string -> option Z.
Variable getTemplateForFile : string -> option string.

(** X9. [handleRun] never throws, whatever the network does, and never
    touches the files, the selector, the active id or the theme.  When the
    active file resolves it releases the loading flag, commits one result per
    test case and puts in front of the history an entry that holds the
    language and the files of the run and the committed results. *)
Theorem handleRun_never_throws_and_records_the_run (net : Network) (clock : Clock)
  (s : Session) :
  let s' := after (handleRun languageIds net clock) s in
  fst (fire (handleRun languageIds net clock) s) = Normal tt
  /\ files s' = files s
  /\ language s' = language s
  /\ activeFileId s' = activeFileId s
  /\ theme s' = theme s
  /\ (forall activeFile,
        findFile (activeFileId s) (files s) = Some activeFile ->
        isLoading s' = false
        /\ length (testCases s') = length (testCases s)
        /\ exists item,
            hd_error (history s') = Some item
            /\ HistoryEntry.id item = now clock
            /\ HistoryEntry.language item = language s
            /\ HistoryEntry.files item = files s
            /\ HistoryEntry.testCases item = testCases s').
Proof.
  intro s'. unfold s', after.
  destruct (findFile (activeFileId s) (files s)) as [activeFile|] eqn:Hactive.
  - rewrite (handleRun_completes languageIds net clock s activeFile Hactive).
    cbn [fst snd files language activeFileId theme isLoading testCases history].
    do 5 (split; [reflexivity|]).
    intros found Hfound.
    split; [reflexivity|]. split; [apply mapFrom_length|].
    rewrite firstn_cons. eexists. split; [reflexivity|]. repeat split.
  - rewrite (handleRun_without_active_file languageIds net clock s Hactive).
    cbn [fst snd files language activeFileId theme].
    do 5 (split; [reflexivity|]).
    intros found Hfound. discriminate.
Qed.



(** X11. The badge of the history entry of a run is the cross as soon as one
    request was rejected or answered with [success: false]; a run without
    test cases gets the check mark. *)
Theorem failed_request_marks_the_history_entry (net : Network) (clock : Clock)
  (s : Session) (activeFile : File.t) :
  findFile (activeFileId s) (files s) = Some activeFile ->
  exists item,
    hd_error (history (run languageIds net clock s)) = Some item
    /\ (forall i tc,
          nth_error (testCases s) i = Some tc ->
          (exists e, net i (requestFor languageIds s activeFile tc) = Judge.Rejected e)
          \/ (exists data,
                 net i (requestFor languageIds s activeFile tc) = Judge.Resolved data
                 /\ Judge.success data = false) ->
          allSucceeded item = false)
    /\ (testCases s = [] -> allSucceeded item = true).
Proof.
  intro Hactive. unfold run, after.
  rewrite (handleRun_completes languageIds net clock s activeFile Hactive).
  cbn [snd history]. rewrite firstn_cons.
  eexists. split; [reflexivity|]. unfold allSucceeded. cbn [HistoryEntry.testCases].
  split.
  - intros i tc Hnth Hfailed.
    match goal with
    | |- forallb ?f ?l = false => destruct (forallb f l) eqn:Hall; [|reflexivity]
    end.
    exfalso. rewrite forallb_forall in Hall.
    assert (Hentry : nth_error (runAll languageIds net s activeFile) i
                     = Some (runTestCase tc (net i (requestFor languageIds s activeFile tc)))).
    { unfold runAll, JS.mapi. rewrite mapFrom_nth_error, Hnth. reflexivity. }
    apply nth_error_In in Hentry. apply Hall in Hentry.
    unfold runTestCase, settleTestCase in Hentry.
    destruct Hfailed as [[e Hreply]|[data [Hreply Hfail]]];
      rewrite Hreply in Hentry; [|rewrite Hfail in Hentry]; discriminate.
  - intro Hnone. unfold runAll. rewrite Hnone. reflexivity.
Qed.

End RunMoreFacts.

Lemma handleRun_never_throws_and_records_the_run_witness :
  let s := snd (setTestCases Sample.threeTestCases initialSession) in
  let clock := mkClock 1700000000000 "2023-11-14T22:13:20.000Z" in
  let s' := after (handleRun Sample.languageIds Sample.secondFails clock) s in
  findFile (activeFileId s) (files s) = Some initialFile
  /\ isLoading s' = false
  /\ length (testCases s') = 3
  /\ exists item,
      hd_error (history s') = Some item
      /\ HistoryEntry.id item = 1700000000000%Z
      /\ HistoryEntry.files item = [initialFile].
Proof.
  intros s clock s'. split; [reflexivity|].
  destruct (handleRun_never_throws_and_records_the_run Sample.languageIds
              Sample.secondFails clock s) as [_ [_ [_ [_ [_ Hrecorded]]]]].
  destruct (Hrecorded initialFile eq_refl)
    as [Hreleased [Hlength [item [Hhead [Hid [_ [Hfiles _]]]]]]].
  split; [exact Hreleased|]. split; [exact Hlength|].
  exists item. split; [exact Hhead|]. split; [exact Hid | exact Hfiles].
Defined.


Lemma failed_request_marks_the_history_entry_witness :
  let s := snd (setTestCases Sample.threeTestCases initialSession) in
  let clock := mkClock 1700000000000 "" in
  findFile (activeFileId s) (files s) = Some initialFile
  /\ exists item,
      hd_error (history (run Sample.languageIds Sample.secondFails clock s)) = Some item
      /\ allSucceeded item = false.
Proof.
  intros s clock. split; [reflexivity|].
  destruct (failed_request_marks_the_history_entry Sample.languageIds
              Sample.secondFails clock s initialFile eq_refl)
    as [item [Hhead [Hfailed _]]].
  exists item. split; [exact Hhead|].
  apply (Hfailed 1 (TestCase.make 2 "2 3" None pending) eq_refl).
  left. exists "Failed to fetch". reflexivity.
Defined.

(** ** The single-request mode *)

Section SingleFacts.

Variable languageIds : string -> option Z.

(** X12. The single-request [handleRun] never throws, releases the loading
    flag and shows the output tab in every case; it leaves the output empty
    exactly when no file is active, and it never touches the files, the
    selector or the test cases. *)
Theorem handleRunSingle_always_finishes (single : Judge.Request -> Judge.Outcome)
  (s : Session) :
  let s' := after (handleRunSingle languageIds single) s in
  fst (fire (handleRunSingle languageIds single) s) = Normal tt
  /\ isLoading s' = false
  /\ activeTab s' = "output"
  /\ files s' = files s
  /\ language s' = language s
  /\ testCases s' = testCases s
  /\ (output s' = None <-> findFile (activeFileId s) (files s) = None).
Proof.
  intro s'. unfold s', after, fire, handleRunSingle, bind, tryFinally, tryCatch.
  cbn [setIsLoading setOutput setActiveTab fst snd files activeFileId language stdin].
  destruct (findFile (activeFileId s) (files s)) as [activeFile|].
  - destruct (single _) as [e|data].
    + cbn. repeat split; discriminate.
    + destruct (Judge.success data).
      * destruct (Judge.result data) as [res|].
        -- destruct (outputTextOf res) as [text|e]; cbn; repeat split; discriminate.
        -- cbn. repeat split; discriminate.
      * cbn. repeat split; discriminate.
  - cbn. repeat split.
Qed.

(** X13. For one and the same reply the single-request mode shows what the
    test-case mode stores as the output of a test case, except for a
    [success: false] reply: there the single-request mode puts "Error: " in
    front of the message and falls back to "Unknown error occurred", the
    test-case mode stores the bare message and falls back to "Unknown error".
    A test case whose input is the standard input gets the very request of
    the single-request mode. *)
Theorem single_and_test_case_modes_report_alike
  (single : Judge.Request -> Judge.Outcome) (s : Session) (activeFile : File.t)
  (tc : TestCase.t) :
  findFile (activeFileId s) (files s) = Some activeFile ->
  let request :=
    Judge.mkRequest (sourceFiles (files s)) (File.name activeFile)
      (languageIdOf languageIds (language s)) (stdin s) in
  let shown := output (after (handleRunSingle languageIds single) s) in
  (TestCase.input tc = stdin s -> requestFor languageIds s activeFile tc = request)
  /\ (forall e,
        single request = Judge.Rejected e ->
        shown = TestCase.output (runTestCase tc (single request)))
  /\ (forall data,
        single request = Judge.Resolved data -> Judge.success data = true ->
        shown = TestCase.output (runTestCase tc (single request)))
  /\ (forall data,
        single request = Judge.Resolved data -> Judge.success data = false ->
        shown = Some ("Error: " ++ JS.orElse (Judge.message data) "Unknown error occurred")
        /\ TestCase.output (runTestCase tc (single request))
           = Some (JS.orElse (Judge.message data) "Unknown error")).
Proof.
  intros Hactive request shown.
  assert (Hshown : shown
            = output (snd (fire (handleRunSingle languageIds single) s))) by reflexivity.
  unfold fire, handleRunSingle, bind, tryFinally, tryCatch in Hshown.
  cbn [setIsLoading setOutput setActiveTab fst snd files activeFileId language stdin]
    in Hshown.
  rewrite Hactive in Hshown. fold request in Hshown.
  split.
  { intro Hinput. unfold requestFor, request. rewrite orElse_self, Hinput. reflexivity. }
  split; [|split].
  - intros e Hreply. rewrite Hreply in *. rewrite Hshown. reflexivity.
  - intros data Hreply Hok. rewrite Hreply in *. rewrite Hshown.
    unfold runTestCase, settleTestCase. rewrite Hok.
    destruct (Judge.result data) as [res|]; [|reflexivity].
    destruct (outputTextOf res) as [text|e]; reflexivity.
  - intros data Hreply Hfail. rewrite Hreply in *. rewrite Hshown.
    unfold runTestCase, settleTestCase. rewrite Hfail. split; reflexivity.
Qed.

End SingleFacts.

Lemma single_and_test_case_modes_report_alike_witness :
  let s := snd (setTestCases Sample.threeTestCases initialSession) in
  let refused : Judge.Request -> Judge.Outcome :=
    fun _ => Judge.Resolved (Judge.mkResponse false None None) in
  findFile (activeFileId s) (files s) = Some initialFile
  /\ output (after (handleRunSingle Sample.languageIds refused) s)
     = Some "Error: Unknown error occurred"
  /\ TestCase.output (runTestCase (TestCase.make 1 "1 4" None pending)
                        (Judge.Resolved (Judge.mkResponse false None None)))
     = Some "Unknown error".
Proof.
  intros s refused. split; [reflexivity|].
  destruct (single_and_test_case_modes_report_alike Sample.languageIds refused s
              initialFile (TestCase.make 1 "1 4" None pending) eq_refl)
    as [_ [_ [_ Hrefused]]].
  exact (Hrefused (Judge.mkResponse false None None) eq_refl eq_refl).
Defined.

(** ** Loading the page from local storage *)

Section ReloadFacts.

Variable decompressFromEncodedURIComponent : string -> option string.
Variable JSON_stringify : json -> string.
Variable JSON_parse : string -> completion json.


(** X15. Stored files that do not parse make the mount effect throw: the
    theme and the language have been restored by then, while the files, the
    active id, the test cases, the history and the standard input keep the
    values of the first render, whatever storage holds for them. *)
Theorem mountEffect_throws_on_unparsable_stored_files (storage : Boot.Storage)
  (text e : string) (b0 : Boot.State) :
  Boot.savedFiles storage = Some text ->
  text <> "" ->
  JSON_parse text = Throw e ->
  exists s',
    mountEffect decompressFromEncodedURIComponent JSON_parse None storage b0
    = (Throw e, s')
    /\ Boot.theme s' = JS.orElse (Boot.savedTheme storage) "dark"
    /\ Boot.language s'
       = (if JS.truthy (Boot.savedLanguage storage)
          then Some (JStr (JS.interpolate (Boot.savedLanguage storage)))
          else Boot.language b0)
    /\ Boot.files s' = Boot.files b0
    /\ Boot.activeFileId s' = Boot.activeFileId b0
    /\ Boot.testCases s' = Boot.testCases b0
    /\ Boot.history s' = Boot.history b0
    /\ Boot.stdin s' = Boot.stdin b0.
Proof.
  intros Hsaved Hnonempty Hparse.
  unfold mountEffect, restoreFromStorage, restoreString, restoreJson, bind, liftC.
  rewrite Hsaved, (truthy_nonempty _ Hnonempty).
  cbn [JS.interpolate Boot.setMounted Boot.setTheme ret]. rewrite Hparse.
  destruct (JS.truthy (Boot.savedLanguage storage));
    cbn; eexists; (split; [reflexivity|]); cbn; repeat split.
Qed.

(** X16. A share token that is empty, that does not decompress, whose text
    does not parse, or whose text is the JSON [null] is ignored: the page
    loads exactly as it does without a token. *)
Theorem unusable_token_loads_like_no_token (token : string) (storage : Boot.Storage)
  (b0 : Boot.State) :
  token = ""
  \/ JS.truthy (decompressFromEncodedURIComponent token) = false
  \/ (exists text e,
         decompressFromEncodedURIComponent token = Some text
         /\ JSON_parse text = Throw e)
  \/ (exists text,
         decompressFromEncodedURIComponent token = Some text
         /\ JSON_parse text = Normal JNull) ->
  mountEffect decompressFromEncodedURIComponent JSON_parse (Some token) storage b0
  = mountEffect decompressFromEncodedURIComponent JSON_parse None storage b0.
Proof.
  intros [Hempty|[Hnull|[[text [e [Htext Hparse]]]|[text [Htext Hparse]]]]].
  - subst token. reflexivity.
  - rewrite (mountEffect_undecompressable decompressFromEncodedURIComponent JSON_parse
               token storage b0 Hnull). reflexivity.
  - rewrite (mountEffect_unparsable decompressFromEncodedURIComponent JSON_parse
               token text e storage b0 Htext Hparse). reflexivity.
  - unfold mountEffect, bind, tryCatch, applyShared, liftC.
    destruct (JS.truthy (Some token)); [|reflexivity].
    cbn [JS.interpolate]. rewrite Htext.
    destruct (JS.truthy (Some text)); [|reflexivity].
    cbn [JS.interpolate]. rewrite Hparse. reflexivity.
Qed.

End ReloadFacts.


Lemma mountEffect_throws_on_unparsable_stored_files_witness :
  let storage :=
    Boot.mkStorage (Some "light") (Some "python") (Some "[{") (Some "7") (Some "[]")
      None None in
  Boot.savedFiles storage = Some "[{"
  /\ "[{" <> ""
  /\ Sample.parse "[{" = Throw Sample.syntaxError
  /\ exists s',
      mountEffect Sample.decompress Sample.parse None storage (firstRender initialSession)
      = (Throw Sample.syntaxError, s')
      /\ Boot.language s' = Some (JStr "python")
      /\ Boot.activeFileId s' = Some (JStr "1").
Proof.
  intro storage.
  assert (Hnonempty : "[{" <> "") by discriminate.
  assert (Hparse : Sample.parse "[{" = Throw Sample.syntaxError) by (vm_compute; reflexivity).
  split; [reflexivity|]. split; [exact Hnonempty|]. split; [exact Hparse|].
  destruct (mountEffect_throws_on_unparsable_stored_files Sample.decompress Sample.parse
              storage "[{" Sample.syntaxError (firstRender initialSession)
              eq_refl Hnonempty Hparse)
    as [s' [Hmount [_ [Hlanguage [_ [Hid _]]]]]].
  exists s'. split; [exact Hmount|]. split; [exact Hlanguage | exact Hid].
Defined.

Lemma unusable_token_loads_like_no_token_witness :
  let storage :=
    Boot.mkStorage (Some "light") (Some "python") None None None None None in
  Sample.decompress "7a7a" = Some "zz"
  /\ Sample.parse "zz" = Throw Sample.syntaxError
  /\ mountEffect Sample.decompress Sample.parse (Some "7a7a") storage
       (firstRender initialSession)
     = mountEffect Sample.decompress Sample.parse None storage
         (firstRender initialSession).
Proof.
  intro storage.
  assert (Htext : Sample.decompress "7a7a" = Some "zz") by (vm_compute; reflexivity).
  assert (Hparse : Sample.parse "zz" = Throw Sample.syntaxError) by (vm_compute; reflexivity).
  split; [exact Htext|]. split; [exact Hparse|].
  apply unusable_token_loads_like_no_token.
  right. right. left. exists "zz", Sample.syntaxError. split; assumption.
Defined.

(** ** Leaving the rename box without a change *)






